(** * penzai.core.struct: frozen PyTree dataclasses

    A shallow embedding of [penzai/core/struct.py]: the [pytree_dataclass]
    decorator, the [AbstractStructMetaclass] instantiation guard, the mutable
    initialisation proxy and the [Struct] flatten / unflatten methods.

    Python objects that the module mutates (class objects, their [__dict__],
    the JAX registry) live in an explicit [store]; every operation that can
    raise returns a [result]; operations that mutate class objects run in a
    state-and-exception monad that keeps the store reached when the exception
    was raised. *)

From stdpp Require Import gmap strings list fin_maps.

(** ** Python values *)

(** The values that fields and class attributes hold.  [VObj] stands for any
    other object, identified by a number. *)
Inductive value :=
| VNone
| VBool (b : bool)
| VInt (z : Z)
| VStr (s : string)
| VObj (n : nat).

(** Python truthiness, as used by [if not ...]. *)
Definition truthy (v : value) : bool :=
  match v with
  | VNone => false
  | VBool b => b
  | VInt z => negb (z =? 0)%Z
  | VStr s => negb (String.eqb s "")
  | VObj _ => true
  end.

Definition class_id := nat.

(** ** Exceptions *)

(** What an exception says; one constructor per message of the module, and a
    few for the Python runtime and [dataclasses]. *)
Inductive message :=
| CannotApplyTwice
| OverwritesInheritedInit (cls_name : string)
| NoImplicitlyInheritedFields (cls_name : string)
| BadlyOrderedAttributes (cls_name : string) (explicit actual : list string)
| MustDefineTreeMethods (cls_name : string)
| MutableInitProxyAlreadyDefined
| FieldNotSetDuringInit (field_name : string)
| CantInstantiateAbstract (cls : class_id)
| NoAttribute (attr : string)
| NotADataclass
| BadArguments
| FieldsMismatch
| Other (n : nat).

Inductive exn :=
| ValueError (m : message)
| PyTreeDataclassSafetyError (m : message)
| AttributeError (m : message)
| TypeError (m : message)
| KeyError (key : string)
| AssertionError
| UserException (n : nat).

Inductive result (A : Type) :=
| Ok (a : A)
| Raise (e : exn).
Arguments Ok {A} a.
Arguments Raise {A} e.

Definition result_bind {A B} (r : result A) (k : A -> result B) : result B :=
  match r with
  | Ok a => k a
  | Raise e => Raise e
  end.

Definition result_map {A B} (f : A -> B) (r : result A) : result B :=
  result_bind r (fun a => Ok (f a)).

Declare Scope result_scope.
Delimit Scope result_scope with result.
Notation "x <- r ;; k" := (result_bind r (fun x => k))
  (at level 100, r at next level, right associativity) : result_scope.

(** ** Dataclass fields and the field classifier *)

(** A [dataclasses.Field]: its name, its [metadata] mapping and its default
    value, if it has one. *)
Record Field := {
  f_name : string;
  f_metadata : gmap string value;
  f_default : option value;
}.

(** [is_pytree_node_field]: [field.metadata.get("pytree_node", True)].  The
    function returns whatever the entry holds; callers test its truthiness. *)
Definition is_pytree_node_field (field : Field) : value :=
  default (VBool true) (f_metadata field !! "pytree_node").

(** ** Class objects *)

Inductive metaclass := ABCMeta | AbstractStructMetaclass.

(** Function objects that can be a class's [__init__].  Two initialisers are
    the same object ([is]) exactly when these descriptions are equal. *)
Inductive init_fn :=
| object_init
| generated_init_of (cls : class_id)
| user_init (n : nat)
| replacement_init_of (cls proxy : class_id) (original_init : init_fn).

Global Instance init_fn_eq_dec : EqDecision init_fn.
Proof. solve_decision. Defined.

(** The dictionary stored under [PYTREE_DATACLASS_INFO_ATTR].  A component is
    [None] when the dictionary has no such key; the value of
    ["generated_init"] is itself [None] or a function. *)
Record info := {
  has_implicitly_inherited_fields : option bool;
  use_mutable_proxy_in_init : option bool;
  is_init_proxy : option bool;
  generated_init : option (option init_fn);
}.

(** A JAX key-path entry, as [key_for_field] returns it. *)
Inductive tree_key :=
| GetAttrKey (field_name : string)
| CustomKey (v : value).

(** An entry of [__annotations__]: a dataclass field with its metadata and
    default, or an annotation that [dataclasses] does not turn into a field
    ([ClassVar], [InitVar], [KW_ONLY]). *)
Inductive annotation :=
| AnnField (metadata : gmap string value) (default : option value)
| AnnNotField.

(** A class object.  [c_mro] is [cls.__mro__] without its last entry
    [object]; it starts with the class itself.  The [d_] components are the
    entries of [cls.__dict__] that the module reads or writes; [None] (or
    [false]) means the entry is absent. *)
Record class_obj := {
  c_name : string;
  c_metaclass : metaclass;
  c_mro : list class_id;
  d_info : option info;
  d_init : option init_fn;
  d_annotations : list (string * annotation);
  d_dataclass_fields : option (list Field);
  d_MutableInitProxy : option (option class_id);
  d_tree_flatten_with_keys : bool;
  d_tree_unflatten : bool;
  d_key_for_field : option (string -> tree_key);
  d_setattr_is_object_setattr : bool;
  d_hash_is_None : bool;
  d_attrs : gmap string value;
}.

Definition set_info (i : option info) (c : class_obj) : class_obj :=
  {| c_name := c_name c; c_metaclass := c_metaclass c; c_mro := c_mro c;
     d_info := i; d_init := d_init c; d_annotations := d_annotations c;
     d_dataclass_fields := d_dataclass_fields c;
     d_MutableInitProxy := d_MutableInitProxy c;
     d_tree_flatten_with_keys := d_tree_flatten_with_keys c;
     d_tree_unflatten := d_tree_unflatten c;
     d_key_for_field := d_key_for_field c;
     d_setattr_is_object_setattr := d_setattr_is_object_setattr c;
     d_hash_is_None := d_hash_is_None c; d_attrs := d_attrs c |}.

Definition set_init (i : option init_fn) (c : class_obj) : class_obj :=
  {| c_name := c_name c; c_metaclass := c_metaclass c; c_mro := c_mro c;
     d_info := d_info c; d_init := i; d_annotations := d_annotations c;
     d_dataclass_fields := d_dataclass_fields c;
     d_MutableInitProxy := d_MutableInitProxy c;
     d_tree_flatten_with_keys := d_tree_flatten_with_keys c;
     d_tree_unflatten := d_tree_unflatten c;
     d_key_for_field := d_key_for_field c;
     d_setattr_is_object_setattr := d_setattr_is_object_setattr c;
     d_hash_is_None := d_hash_is_None c; d_attrs := d_attrs c |}.

Definition set_dataclass_fields (fs : option (list Field)) (c : class_obj)
  : class_obj :=
  {| c_name := c_name c; c_metaclass := c_metaclass c; c_mro := c_mro c;
     d_info := d_info c; d_init := d_init c;
     d_annotations := d_annotations c;
     d_dataclass_fields := fs;
     d_MutableInitProxy := d_MutableInitProxy c;
     d_tree_flatten_with_keys := d_tree_flatten_with_keys c;
     d_tree_unflatten := d_tree_unflatten c;
     d_key_for_field := d_key_for_field c;
     d_setattr_is_object_setattr := d_setattr_is_object_setattr c;
     d_hash_is_None := d_hash_is_None c; d_attrs := d_attrs c |}.

Definition set_MutableInitProxy (p : option (option class_id)) (c : class_obj)
  : class_obj :=
  {| c_name := c_name c; c_metaclass := c_metaclass c; c_mro := c_mro c;
     d_info := d_info c; d_init := d_init c;
     d_annotations := d_annotations c;
     d_dataclass_fields := d_dataclass_fields c;
     d_MutableInitProxy := p;
     d_tree_flatten_with_keys := d_tree_flatten_with_keys c;
     d_tree_unflatten := d_tree_unflatten c;
     d_key_for_field := d_key_for_field c;
     d_setattr_is_object_setattr := d_setattr_is_object_setattr c;
     d_hash_is_None := d_hash_is_None c; d_attrs := d_attrs c |}.

Definition set_attrs (a : gmap string value) (c : class_obj) : class_obj :=
  {| c_name := c_name c; c_metaclass := c_metaclass c; c_mro := c_mro c;
     d_info := d_info c; d_init := d_init c;
     d_annotations := d_annotations c;
     d_dataclass_fields := d_dataclass_fields c;
     d_MutableInitProxy := d_MutableInitProxy c;
     d_tree_flatten_with_keys := d_tree_flatten_with_keys c;
     d_tree_unflatten := d_tree_unflatten c;
     d_key_for_field := d_key_for_field c;
     d_setattr_is_object_setattr := d_setattr_is_object_setattr c;
     d_hash_is_None := d_hash_is_None c; d_attrs := a |}.

(** ** The store *)

(** Arguments of a call: positional ones and keywords. *)
Record call_args := {
  args : list value;
  kwargs : gmap string value;
}.

(** The class objects, the classes registered with
    [jax.tree_util.register_pytree_with_keys_class], and the bodies of the
    hand-written initialisers: [functions s n a self] runs [user_init n] on
    an object whose instance dictionary is [self] and gives the outcome and
    the instance dictionary it leaves. *)
Record store := {
  classes : gmap class_id class_obj;
  jax_registry : gset class_id;
  functions : nat -> call_args -> gmap string value
              -> result unit * gmap string value;
}.

Definition set_classes (cs : gmap class_id class_obj) (s : store) : store :=
  {| classes := cs; jax_registry := jax_registry s; functions := functions s |}.

Definition set_jax_registry (r : gset class_id) (s : store) : store :=
  {| classes := classes s; jax_registry := r; functions := functions s |}.

(** In-place update of the class object [cls]. *)
Definition update_class (cls : class_id) (f : class_obj -> class_obj)
  (s : store) : store :=
  set_classes (alter f cls (classes s)) s.

(** Attribute lookup on a class, along its method resolution order: the first
    class of [cls.__mro__] whose [__dict__] has the entry. *)
Fixpoint first_along {A} (s : store) (get : class_obj -> option A)
  (mro : list class_id) : option A :=
  match mro with
  | [] => None
  | b :: mro' =>
      match classes s !! b ≫= get with
      | Some a => Some a
      | None => first_along s get mro'
      end
  end.

Definition mro (s : store) (cls : class_id) : list class_id :=
  match classes s !! cls with
  | Some c => c_mro c
  | None => []
  end.

Definition class_lookup {A} (s : store) (cls : class_id)
  (get : class_obj -> option A) : option A :=
  first_along s get (mro s cls).

(** [cls.__init__]: the first [__init__] along the MRO, [object.__init__]
    when no class before [object] defines one. *)
Definition class_init (s : store) (cls : class_id) : init_fn :=
  default object_init (class_lookup s cls d_init).

Definition flag (b : bool) : option unit := if b then Some tt else None.

(** [hasattr(cls, name)] for the attributes the module asks about. *)
Definition hasattr_info (s : store) (cls : class_id) : bool :=
  bool_decide (is_Some (class_lookup s cls d_info)).
Definition hasattr_tree_flatten_with_keys (s : store) (cls : class_id) : bool :=
  bool_decide (is_Some (class_lookup s cls
                          (fun c => flag (d_tree_flatten_with_keys c)))).
Definition hasattr_tree_unflatten (s : store) (cls : class_id) : bool :=
  bool_decide (is_Some (class_lookup s cls
                          (fun c => flag (d_tree_unflatten c)))).

(** [is_pytree_dataclass_type]:
    [isinstance(cls, type) and PYTREE_DATACLASS_INFO_ATTR in cls.__dict__].
    An identifier that names no class object of the store is not a type. *)
Definition is_pytree_dataclass_type (s : store) (cls : class_id) : bool :=
  match classes s !! cls with
  | Some c => bool_decide (is_Some (d_info c))
  | None => false
  end.

(** [dataclasses.fields(cls)]: the fields recorded in
    [__dataclass_fields__], found by attribute lookup; [TypeError] for a
    class that is not a dataclass. *)
Definition dataclasses_fields (s : store) (cls : class_id)
  : result (list Field) :=
  match class_lookup s cls d_dataclass_fields with
  | Some fs => Ok fs
  | None => Raise (TypeError NotADataclass)
  end.

(** ** Instances *)

(** An instance: its class and its instance dictionary. *)
Record instance := {
  i_class : class_id;
  i_attrs : gmap string value;
}.

(** [getattr(obj, name)]: the instance dictionary first, then the class
    attributes along the MRO; [AttributeError] otherwise.  The class
    attributes read here are the plain values of [d_attrs], such as field
    defaults.  The entries of a class dictionary that [class_obj] keeps in
    components of their own ([__init__], [__setattr__], [__hash__],
    [_MutableInitProxy], the info attribute and the codec methods) are not
    read through this function: it stands for the reads of declared fields
    made by the codec and by [replacement_init], whose names are taken to
    differ from those. *)
Definition getattr (s : store) (obj : instance) (name : string)
  : result value :=
  match i_attrs obj !! name with
  | Some v => Ok v
  | None =>
      match class_lookup s (i_class obj) (fun c => d_attrs c !! name) with
      | Some v => Ok v
      | None => Raise (AttributeError (NoAttribute name))
      end
  end.

(** ** The tree codec of [Struct] *)

(** [StructStaticMetadata]: the names of the child fields in serialisation
    order, and the values of the fields that are not PyTree nodes. *)
Record StructStaticMetadata := {
  child_field_names : list string;
  static_fields : gmap string value;
}.

(** Modelled from the spec: [dataclass_util.dataclass_from_attributes], which
    [Struct.from_attributes] calls and which lives in another module of the
    repository.  The spec describes it as the attribute-direct construction
    path: it builds a new instance purely from a full field-value mapping,
    bypassing any custom initialiser.  A mapping that is not full, one whose
    keys are not exactly the declared field names, is refused. *)
Definition dataclass_from_attributes (s : store) (cls : class_id)
  (field_values : gmap string value) : result instance :=
  (fs <- dataclasses_fields s cls;;
   if bool_decide (dom field_values = list_to_set (f_name <$> fs))
   then Ok {| i_class := cls; i_attrs := field_values |}
   else Raise (ValueError FieldsMismatch))%result.

Module Struct.

Definition from_attributes (s : store) (cls : class_id)
  (field_values : gmap string value) : result instance :=
  dataclass_from_attributes s cls field_values.

(** [self.key_for_field(field_name)]: the method found on the class of
    [self]; the one [Struct] defines gives [GetAttrKey]. *)
Definition key_for_field (s : store) (self : instance)
  (field_name : string) : tree_key :=
  match class_lookup s (i_class self) d_key_for_field with
  | Some override => override field_name
  | None => GetAttrKey field_name
  end.

(** The loop of [tree_flatten_with_keys] over the remaining fields, with
    the three accumulators of the source. *)
Fixpoint tree_flatten_with_keys_loop (s : store) (self : instance)
  (fields : list Field) (child_field_names : list string)
  (children : list (tree_key * value)) (static_fields : gmap string value)
  : result (list (tree_key * value) * StructStaticMetadata) :=
  match fields with
  | [] =>
      Ok (children,
          {| child_field_names := child_field_names;
             static_fields := static_fields |})
  | field_ :: fields' =>
      (value <- getattr s self (f_name field_);;
       if negb (truthy (is_pytree_node_field field_))
       then tree_flatten_with_keys_loop s self fields' child_field_names
              children (<[f_name field_ := value]> static_fields)
       else tree_flatten_with_keys_loop s self fields'
              (child_field_names ++ [f_name field_])
              (children ++ [(key_for_field s self (f_name field_), value)])
              static_fields)%result
  end.

Definition tree_flatten_with_keys (s : store) (self : instance)
  : result (list (tree_key * value) * StructStaticMetadata) :=
  (fields <- dataclasses_fields s (i_class self);;
   tree_flatten_with_keys_loop s self fields [] [] ∅)%result.

(** The loop of [tree_flatten]: the same, with bare values as children. *)
Fixpoint tree_flatten_loop (s : store) (self : instance)
  (fields : list Field) (child_field_names : list string)
  (children : list value) (static_fields : gmap string value)
  : result (list value * StructStaticMetadata) :=
  match fields with
  | [] =>
      Ok (children,
          {| child_field_names := child_field_names;
             static_fields := static_fields |})
  | field_ :: fields' =>
      (value <- getattr s self (f_name field_);;
       if negb (truthy (is_pytree_node_field field_))
       then tree_flatten_loop s self fields' child_field_names
              children (<[f_name field_ := value]> static_fields)
       else tree_flatten_loop s self fields'
              (child_field_names ++ [f_name field_])
              (children ++ [value])
              static_fields)%result
  end.

Definition tree_flatten (s : store) (self : instance)
  : result (list value * StructStaticMetadata) :=
  (fields <- dataclasses_fields s (i_class self);;
   tree_flatten_loop s self fields [] [] ∅)%result.

(** [for name, child in zip(...): attributes[name] = child]. *)
Definition assign_children (attributes : gmap string value)
  (pairs : list (string * value)) : gmap string value :=
  fold_left (fun attrs nc => <[nc.1 := nc.2]> attrs) pairs attributes.

Definition tree_unflatten (s : store) (cls : class_id)
  (aux_data : StructStaticMetadata) (children : list value)
  : result instance :=
  let attributes := static_fields aux_data in
  if bool_decide (length children = length (child_field_names aux_data))
  then from_attributes s cls
         (assign_children attributes
            (zip (child_field_names aux_data) children))
  else Raise AssertionError.

(** [attributes_dict]: every dataclass field with its value. *)
Fixpoint attributes_dict_loop (s : store) (self : instance)
  (fields : list Field) (acc : gmap string value)
  : result (gmap string value) :=
  match fields with
  | [] => Ok acc
  | field :: fields' =>
      (value <- getattr s self (f_name field);;
       attributes_dict_loop s self fields' (<[f_name field := value]> acc))
      %result
  end.

Definition attributes_dict (s : store) (self : instance)
  : result (gmap string value) :=
  (fields <- dataclasses_fields s (i_class self);;
   attributes_dict_loop s self fields ∅)%result.

End Struct.

(** ** Construction of instances *)

(** How the [__init__] that [dataclasses] generates binds its arguments to
    the fields: positional arguments first, then keywords, then defaults. *)
Fixpoint bind_arguments (fields : list Field) (positional : list value)
  (keywords : gmap string value) : result (list (string * value)) :=
  match fields with
  | [] =>
      if bool_decide (positional = [] ∧ dom keywords = ∅)
      then Ok [] else Raise (TypeError BadArguments)
  | f :: fields' =>
      match positional with
      | v :: positional' =>
          if bool_decide (is_Some (keywords !! f_name f))
          then Raise (TypeError BadArguments)
          else result_map (cons (f_name f, v))
                 (bind_arguments fields' positional' keywords)
      | [] =>
          match keywords !! f_name f, f_default f with
          | Some v, _ =>
              result_map (cons (f_name f, v))
                (bind_arguments fields' [] (delete (f_name f) keywords))
          | None, Some v =>
              result_map (cons (f_name f, v))
                (bind_arguments fields' [] keywords)
          | None, None => Raise (TypeError BadArguments)
          end
      end
  end.

(** [object.__setattr__(self, name, value)] for each pair in turn. *)
Definition setattr_all (self : gmap string value)
  (pairs : list (string * value)) : gmap string value :=
  fold_left (fun attrs nv => <[nv.1 := nv.2]> attrs) pairs self.

(** The guard of [AbstractStructMetaclass.__call__]. *)
Definition AbstractStructMetaclass_guard (s : store) (cls : class_id)
  : result unit :=
  if negb (is_pytree_dataclass_type s cls)
  then Raise (TypeError (CantInstantiateAbstract cls))
  else Ok tt.

(** What the metaclass of [cls] checks before an instance is made. *)
Definition metaclass_guard (s : store) (cls : class_id) : result unit :=
  match c_metaclass <$> classes s !! cls with
  | Some AbstractStructMetaclass => AbstractStructMetaclass_guard s cls
  | _ => Ok tt
  end.

(** The loop of [replacement_init]: copy every field from the proxy with
    [object.__setattr__], in field order, stopping at the first field the
    proxy has no value for. *)
Fixpoint copy_fields (s : store) (proxy : instance) (fields : list Field)
  (self : gmap string value) : result unit * gmap string value :=
  match fields with
  | [] => (Ok tt, self)
  | field_ :: fields' =>
      match getattr s proxy (f_name field_) with
      | Ok value_from_proxy =>
          copy_fields s proxy fields'
            (<[f_name field_ := value_from_proxy]> self)
      | Raise (AttributeError _) =>
          (Raise (AttributeError (FieldNotSetDuringInit (f_name field_))),
           self)
      | Raise e => (Raise e, self)
      end
  end.

(** Running an initialiser with arguments [a] on an object whose instance
    dictionary is [self]: the outcome and the dictionary it leaves.

    - [object.__init__] accepts no argument and assigns nothing.
    - The generated initialiser of a frozen dataclass assigns every field.
    - A hand-written initialiser does what the store says it does.
    - [replacement_init] builds the proxy, [_MutableInitProxy] called on the same arguments,
      a fresh object of the proxy class initialised by [original_init] (the
      [__init__] in the body of the proxy class) once the metaclass of the
      proxy class lets the call through, and then copies the fields. *)
Fixpoint run_init (s : store) (init : init_fn) (a : call_args)
  (self : gmap string value) : result unit * gmap string value :=
  match init with
  | object_init =>
      if bool_decide (args a = [] ∧ dom (kwargs a) = ∅)
      then (Ok tt, self) else (Raise (TypeError BadArguments), self)
  | generated_init_of cls =>
      match (fields <- dataclasses_fields s cls;;
             bind_arguments fields (args a) (kwargs a))%result with
      | Ok bound => (Ok tt, setattr_all self bound)
      | Raise e => (Raise e, self)
      end
  | user_init n => functions s n a self
  | replacement_init_of cls proxy original_init =>
      match metaclass_guard s proxy with
      | Raise e => (Raise e, self)
      | Ok _ =>
          match run_init s original_init a ∅ with
          | (Raise e, _) => (Raise e, self)
          | (Ok _, proxy_attrs) =>
              match dataclasses_fields s cls with
              | Raise e => (Raise e, self)
              | Ok fields =>
                  copy_fields s
                    {| i_class := proxy; i_attrs := proxy_attrs |}
                    fields self
              end
          end
      end
  end.

(** [type.__call__] on [cls] and the arguments: a new object of class [cls] with
    an empty instance dictionary, initialised by [cls.__init__]. *)
Definition type_call (s : store) (cls : class_id) (a : call_args)
  : result instance :=
  match run_init s (class_init s cls) a ∅ with
  | (Ok _, attrs) => Ok {| i_class := cls; i_attrs := attrs |}
  | (Raise e, _) => Raise e
  end.

(** [AbstractStructMetaclass.__call__]. *)
Definition AbstractStructMetaclass_call (s : store) (cls : class_id)
  (a : call_args) : result instance :=
  if negb (is_pytree_dataclass_type s cls)
  then Raise (TypeError (CantInstantiateAbstract cls))
  else type_call s cls a.

(** Calling [cls] on arguments, dispatched on the metaclass of [cls]. *)
Definition call_class (s : store) (cls : class_id) (a : call_args)
  : result instance :=
  match c_metaclass <$> classes s !! cls with
  | Some AbstractStructMetaclass => AbstractStructMetaclass_call s cls a
  | _ => type_call s cls a
  end.

(** ** [dataclasses.dataclass] *)

(** [fields[f.name] = f] on an insertion-ordered dictionary: an existing
    entry keeps its position, a new one goes last. *)
Fixpoint set_field (f : Field) (fields : list Field) : list Field :=
  match fields with
  | [] => [f]
  | g :: fields' =>
      if String.eqb (f_name g) (f_name f) then f :: fields'
      else g :: set_field f fields'
  end.

Definition set_fields (new old : list Field) : list Field :=
  fold_left (fun fields f => set_field f fields) new old.

(** The fields the class body declares: its annotations that are fields. *)
Definition own_fields (c : class_obj) : list Field :=
  omap (fun na : string * annotation =>
          match na.2 with
          | AnnField md d =>
              Some {| f_name := na.1; f_metadata := md; f_default := d |}
          | AnnNotField => None
          end) (d_annotations c).

(** The fields of the base classes, collected over [cls.__mro__[-1:0:-1]]. *)
Definition base_fields (s : store) (cls : class_id) : list Field :=
  fold_left
    (fun fields b =>
       match class_lookup s b d_dataclass_fields with
       | Some fs => set_fields fs fields
       | None => fields
       end)
    (rev (tail (mro s cls))) [].

(** The class attribute of a field after the transformation: its default
    when it has one, no attribute otherwise. *)
Definition set_default (attrs : gmap string value) (f : Field)
  : gmap string value :=
  match f_default f with
  | Some v => <[f_name f := v]> attrs
  | None => delete (f_name f) attrs
  end.

(** [_set_new_attribute(cls, "__init__", ...)]: never overwrites. *)
Definition set_new_init (i : init_fn) (c : class_obj) : class_obj :=
  match d_init c with
  | Some _ => c
  | None => set_init (Some i) c
  end.

(** [dataclasses.dataclass(init=init, ..., frozen=True)(cls)], as far as the
    module depends on it: it computes the fields (inherited ones first, own
    ones replacing or following them), records them on the class, leaves
    each default as a class attribute and, when [init] is requested and the
    class body has no [__init__], installs a generated one.  The class is
    transformed in place.  The methods that [repr], [eq], [order] and
    [match_args] generate are not represented. *)
Definition dataclasses_dataclass (init : bool) (cls : class_id) (s : store)
  : store :=
  match classes s !! cls with
  | None => s
  | Some c =>
      let fields := set_fields (own_fields c) (base_fields s cls) in
      update_class cls
        (fun c =>
           let c := set_dataclass_fields (Some fields) c in
           let c := set_attrs (fold_left set_default (own_fields c)
                                 (d_attrs c)) c in
           if init then set_new_init (generated_init_of cls) c else c)
        s
  end.

(** ** The state-and-exception monad of class transformations *)

(** A computation that reads and mutates the store and either returns or
    raises; the store reached is kept in both cases. *)
Definition M (A : Type) : Type := store -> result A * store.

Definition ret {A} (a : A) : M A := fun s => (Ok a, s).
Definition raise {A} (e : exn) : M A := fun s => (Raise e, s).
Definition bind {A B} (m : M A) (k : A -> M B) : M B :=
  fun s =>
    match m s with
    | (Ok a, s') => k a s'
    | (Raise e, s') => (Raise e, s')
    end.
Definition gets {A} (f : store -> A) : M A := fun s => (Ok (f s), s).
Definition modify (f : store -> store) : M unit := fun s => (Ok tt, f s).

Declare Scope M_scope.
Delimit Scope M_scope with M.
Notation "x <- m ;; k" := (bind m (fun x => k))
  (at level 100, m at next level, right associativity) : M_scope.
Notation "m ;;; k" := (bind m (fun _ => k))
  (at level 100, right associativity) : M_scope.

(** ** The [pytree_dataclass] decorator *)

(** The keyword arguments of [pytree_dataclass].  [repr] is [None] for
    ["auto"]. *)
Record options := {
  opt_has_implicitly_inherited_fields : bool;
  opt_use_mutable_proxy_in_init : bool;
  opt_overwrite_parent_init : bool;
  opt_init : bool;
  opt_repr : option bool;
  opt_eq : bool;
  opt_order : bool;
  opt_match_args : bool;
  opt_kw_only : bool;
}.

Definition default_options : options :=
  {| opt_has_implicitly_inherited_fields := false;
     opt_use_mutable_proxy_in_init := true;
     opt_overwrite_parent_init := false;
     opt_init := true;
     opt_repr := None;
     opt_eq := true;
     opt_order := false;
     opt_match_args := false;
     opt_kw_only := false |}.

(** [info["generated_init"] = g] on the info dictionary of the class. *)
Definition set_generated_init (g : option init_fn) (c : class_obj)
  : class_obj :=
  set_info
    ((fun i =>
        {| has_implicitly_inherited_fields := has_implicitly_inherited_fields i;
           use_mutable_proxy_in_init := use_mutable_proxy_in_init i;
           is_init_proxy := is_init_proxy i;
           generated_init := Some g |}) <$> d_info c) c.

(** The class statement [class _MutableInitProxy(cls)] with its body, and
    the two attribute assignments that follow it: a subclass of [cls] with
    the metaclass of [cls], whose [__setattr__] is [object.__setattr__],
    whose [__hash__] is [None], whose [__init__] is [original_init], marked
    as an init proxy and with [_MutableInitProxy = None]. *)
Definition MutableInitProxy_class (c : class_obj) (proxy : class_id)
  (original_init : init_fn) : class_obj :=
  {| c_name := c_name c +:+ "._MutableInitProxy";
     c_metaclass := c_metaclass c;
     c_mro := proxy :: c_mro c;
     d_info := Some {| has_implicitly_inherited_fields := None;
                       use_mutable_proxy_in_init := None;
                       is_init_proxy := Some true;
                       generated_init := None |};
     d_init := Some original_init;
     d_annotations := [];
     d_dataclass_fields := None;
     d_MutableInitProxy := Some None;
     d_tree_flatten_with_keys := false;
     d_tree_unflatten := false;
     d_key_for_field := None;
     d_setattr_is_object_setattr := true;
     d_hash_is_None := true;
     d_attrs := ∅ |}.

(** The identity of a newly created class object. *)
Definition new_class_id (s : store) : class_id := fresh (dom (classes s)).

(** The safety check on an inherited [__init__] (source lines 207-231). *)
Definition check_parent_init (cls : class_id) (c : class_obj) : M unit :=
  (generated_init <-
     (fun s =>
        match class_lookup s cls d_info with
        | Some parent_info =>
            match generated_init parent_info with
            | Some (Some g) => (Ok g, s)
            | Some None => (Ok object_init, s)
            | None => (Raise (KeyError "generated_init"), s)
            end
        | None => (Ok object_init, s)
        end);;
   cls_init <- gets (fun s => class_init s cls);;
   if bool_decide (cls_init ≠ generated_init)
   then raise (PyTreeDataclassSafetyError (OverwritesInheritedInit (c_name c)))
   else ret tt)%M.

(** The check that the class lists its fields (source lines 269-306). *)
Definition check_fields (o : options) (cls : class_id) (c : class_obj)
  : M unit :=
  (explicit_annotation_names <-
     gets (fun s => match classes s !! cls with
                    | Some c' => (d_annotations c').*1
                    | None => []
                    end);;
   fun s =>
     match dataclasses_fields s cls with
     | Raise e => (Raise e, s)
     | Ok actual_fields =>
         let actual_field_names := f_name <$> actual_fields in
         if opt_has_implicitly_inherited_fields o then
           let inherited_names :=
             filter (fun n => n ∉ explicit_annotation_names)
               actual_field_names in
           if bool_decide (inherited_names = [])
           then (Raise (PyTreeDataclassSafetyError
                          (NoImplicitlyInheritedFields (c_name c))), s)
           else (Ok tt, s)
         else
           let explicit_field_names :=
             filter (fun n => n ∈ actual_field_names)
               explicit_annotation_names in
           if bool_decide (explicit_field_names ≠ actual_field_names)
           then (Raise (PyTreeDataclassSafetyError
                          (BadlyOrderedAttributes (c_name c)
                             explicit_field_names actual_field_names)), s)
           else (Ok tt, s)
     end)%M.

(** Installing the mutable init proxy (source lines 322-373). *)
Definition install_proxy (cls : class_id) (original_init : init_fn)
  : M unit :=
  (c <- (fun s => match classes s !! cls with
                  | Some c => (Ok c, s)
                  | None => (Raise (TypeError (Other 0)), s)
                  end);;
   if bool_decide (is_Some (d_MutableInitProxy c))
   then raise (ValueError MutableInitProxyAlreadyDefined)
   else
     proxy <- gets new_class_id;;
     modify (fun s =>
               set_classes
                 (<[proxy := MutableInitProxy_class c proxy original_init]>
                    (classes s)) s);;;
     modify (update_class cls (set_MutableInitProxy (Some (Some proxy))));;;
     modify (update_class cls
               (set_init
                  (Some (replacement_init_of cls proxy original_init)))))%M.

(** [pytree_dataclass(cls, **options)], applied to a class.  (Called without
    a class it returns the decorator that calls it with one.) *)
Definition pytree_dataclass (o : options) (cls : class_id) : M class_id :=
  (c <- (fun s => match classes s !! cls with
                  | Some c => (Ok c, s)
                  | None => (Raise (TypeError (Other 0)), s)
                  end);;
   if bool_decide (is_Some (d_info c))
   then raise (ValueError CannotApplyTwice)
   else
     let original_init := d_init c in
     (if opt_init o && bool_decide (original_init = None)
         && negb (opt_overwrite_parent_init o)
      then check_parent_init cls c else ret tt);;;
     modify (update_class cls
               (set_info
                  (Some {| has_implicitly_inherited_fields :=
                             Some (opt_has_implicitly_inherited_fields o);
                           use_mutable_proxy_in_init :=
                             Some (opt_use_mutable_proxy_in_init o);
                           is_init_proxy := Some false;
                           generated_init := None |})));;;
     modify (dataclasses_dataclass (opt_init o) cls);;;
     cls_init <- gets (fun s => class_init s cls);;
     modify (update_class cls
               (set_generated_init
                  (if opt_init o && bool_decide (original_init = None)
                   then Some cls_init else None)));;;
     check_fields o cls c;;;
     has_methods <- gets (fun s => hasattr_tree_flatten_with_keys s cls
                                   && hasattr_tree_unflatten s cls);;
     (if negb has_methods
      then raise (AttributeError (MustDefineTreeMethods (c_name c)))
      else ret tt);;;
     modify (fun s => set_jax_registry ({[cls]} ∪ jax_registry s) s);;;
     (match original_init with
      | Some original_init =>
          if opt_use_mutable_proxy_in_init o
          then install_proxy cls original_init else ret tt
      | None => ret tt
      end);;;
     ret cls)%M.

(** ** Vocabulary of the statements *)

(** A field is a child when the classifier's answer is truthy. *)
Definition is_child (f : Field) : bool := truthy (is_pytree_node_field f).

(** Every field of the list can be read from the object. *)
Definition has_fields (s : store) (obj : instance) (fields : list Field)
  : Prop :=
  Forall (fun f => exists v, getattr s obj (f_name f) = Ok v) fields.

(** The value read from an attribute, [VNone] standing in when the lookup
    raises. *)
Definition attr (s : store) (obj : instance) (name : string) : value :=
  match getattr s obj name with
  | Ok v => v
  | Raise _ => VNone
  end.

(** The pairs a list of fields contributes to a dictionary. *)
Definition field_items (s : store) (obj : instance) (fields : list Field)
  : list (string * value) :=
  (fun f => (f_name f, attr s obj (f_name f))) <$> fields.

(** The declared fields that are static, and those that are children, in
    declaration order. *)
Definition statics_of (fields : list Field) : list Field :=
  filter (fun f => ¬ is_child f) fields.
Definition children_of (fields : list Field) : list Field :=
  filter (fun f => is_child f) fields.

(** ** The phases of [pytree_dataclass]

    Names for the stretches of the decorator between two places where it can
    raise; the statements about failed registrations speak of them. *)

(** The function that [check_parent_init] takes to be the initialiser a
    previous registration generated (its local [generated_init]). *)
Definition expected_parent_init (s : store) (cls : class_id)
  : result init_fn :=
  match class_lookup s cls d_info with
  | Some parent_info =>
      match generated_init parent_info with
      | Some (Some g) => Ok g
      | Some None => Ok object_init
      | None => Raise (KeyError "generated_init")
      end
  | None => Ok object_init
  end.

(** Source lines 207-231: the check on the inherited [__init__], when it
    applies. *)
Definition parent_init_check (o : options) (cls : class_id) (c : class_obj)
  : M unit :=
  if opt_init o && bool_decide (d_init c = None)
     && negb (opt_overwrite_parent_init o)
  then check_parent_init cls c else ret tt.

(** Source lines 235-267: the info dictionary is stored on the class, the
    class is transformed into a frozen dataclass, and the generated
    initialiser is remembered. *)
Definition transformed (o : options) (cls : class_id) (c : class_obj)
  (s : store) : store :=
  let s := update_class cls
             (set_info
                (Some {| has_implicitly_inherited_fields :=
                           Some (opt_has_implicitly_inherited_fields o);
                         use_mutable_proxy_in_init :=
                           Some (opt_use_mutable_proxy_in_init o);
                         is_init_proxy := Some false;
                         generated_init := None |})) s in
  let s := dataclasses_dataclass (opt_init o) cls s in
  update_class cls
    (set_generated_init
       (if opt_init o && bool_decide (d_init c = None)
        then Some (class_init s cls) else None)) s.

(** Source line 319. *)
Definition jax_registered (cls : class_id) (s : store) : store :=
  set_jax_registry ({[cls]} ∪ jax_registry s) s.

(** Source lines 322-373. *)
Definition proxy_phase (o : options) (cls : class_id) (c : class_obj)
  : M unit :=
  match d_init c with
  | Some original_init =>
      if opt_use_mutable_proxy_in_init o
      then install_proxy cls original_init else ret tt
  | None => ret tt
  end.

(** The failures of the registration safety checks: already registered,
    unsafe overwrite of an inherited initialiser, field-order mismatch,
    redundant opt-in, missing codec operations. *)
Definition safety_check_failure (e : exn) : Prop :=
  match e with
  | ValueError CannotApplyTwice => True
  | PyTreeDataclassSafetyError (OverwritesInheritedInit _) => True
  | PyTreeDataclassSafetyError (BadlyOrderedAttributes _ _ _) => True
  | PyTreeDataclassSafetyError (NoImplicitlyInheritedFields _) => True
  | AttributeError (MustDefineTreeMethods _) => True
  | _ => False
  end.

(** The store after the proxy of [cls] has been installed: the new proxy
    class, [cls._MutableInitProxy] and the replaced [cls.__init__]. *)
Definition with_proxy (cls : class_id) (c : class_obj)
  (original_init : init_fn) (s : store) : store :=
  let proxy := new_class_id s in
  update_class cls
    (set_init (Some (replacement_init_of cls proxy original_init)))
    (update_class cls (set_MutableInitProxy (Some (Some proxy)))
       (set_classes
          (<[proxy := MutableInitProxy_class c proxy original_init]>
             (classes s)) s)).

(** The ways a call of [pytree_dataclass] ends, one constructor per exit of
    the source in source order, each with the store it leaves. *)
Inductive outcome (o : options) (cls : class_id) (s : store)
  : result class_id -> store -> Prop :=
| not_a_class :
    classes s !! cls = None ->
    outcome o cls s (Raise (TypeError (Other 0))) s
| already_registered c :
    classes s !! cls = Some c -> is_Some (d_info c) ->
    outcome o cls s (Raise (ValueError CannotApplyTwice)) s
| parent_init_rejected c e :
    classes s !! cls = Some c -> d_info c = None ->
    parent_init_check o cls c s = (Raise e, s) ->
    outcome o cls s (Raise e) s
| fields_rejected c e :
    classes s !! cls = Some c -> d_info c = None ->
    parent_init_check o cls c s = (Ok tt, s) ->
    check_fields o cls c (transformed o cls c s)
    = (Raise e, transformed o cls c s) ->
    outcome o cls s (Raise e) (transformed o cls c s)
| methods_missing c :
    classes s !! cls = Some c -> d_info c = None ->
    parent_init_check o cls c s = (Ok tt, s) ->
    check_fields o cls c (transformed o cls c s)
    = (Ok tt, transformed o cls c s) ->
    hasattr_tree_flatten_with_keys (transformed o cls c s) cls
    && hasattr_tree_unflatten (transformed o cls c s) cls = false ->
    outcome o cls s
      (Raise (AttributeError (MustDefineTreeMethods (c_name c))))
      (transformed o cls c s)
| proxy_rejected c e s' :
    classes s !! cls = Some c -> d_info c = None ->
    parent_init_check o cls c s = (Ok tt, s) ->
    check_fields o cls c (transformed o cls c s)
    = (Ok tt, transformed o cls c s) ->
    proxy_phase o cls c (jax_registered cls (transformed o cls c s))
    = (Raise e, s') ->
    outcome o cls s (Raise e) s'
| registered c s' :
    classes s !! cls = Some c -> d_info c = None ->
    parent_init_check o cls c s = (Ok tt, s) ->
    check_fields o cls c (transformed o cls c s)
    = (Ok tt, transformed o cls c s) ->
    hasattr_tree_flatten_with_keys (transformed o cls c s) cls
    && hasattr_tree_unflatten (transformed o cls c s) cls = true ->
    proxy_phase o cls c (jax_registered cls (transformed o cls c s))
    = (Ok tt, s') ->
    outcome o cls s (Ok cls) s'.

(** ** Rewriting field metadata

    [retag_store g s] is the store [s] with the metadata of every field
    declaration replaced by its image under [g]: any change to how fields are
    classified is of this form. *)
Definition retag_field (g : gmap string value -> gmap string value)
  (f : Field) : Field :=
  {| f_name := f_name f; f_metadata := g (f_metadata f);
     f_default := f_default f |}.

Definition retag_annotation (g : gmap string value -> gmap string value)
  (a : annotation) : annotation :=
  match a with
  | AnnField md d => AnnField (g md) d
  | AnnNotField => AnnNotField
  end.

Definition retag_class (g : gmap string value -> gmap string value)
  (c : class_obj) : class_obj :=
  {| c_name := c_name c; c_metaclass := c_metaclass c; c_mro := c_mro c;
     d_info := d_info c; d_init := d_init c;
     d_annotations :=
       (fun na : string * annotation => (na.1, retag_annotation g na.2))
         <$> d_annotations c;
     d_dataclass_fields :=
       (fun fs : list Field => retag_field g <$> fs) <$> d_dataclass_fields c;
     d_MutableInitProxy := d_MutableInitProxy c;
     d_tree_flatten_with_keys := d_tree_flatten_with_keys c;
     d_tree_unflatten := d_tree_unflatten c;
     d_key_for_field := d_key_for_field c;
     d_setattr_is_object_setattr := d_setattr_is_object_setattr c;
     d_hash_is_None := d_hash_is_None c; d_attrs := d_attrs c |}.

Definition retag_store (g : gmap string value -> gmap string value)
  (s : store) : store :=
  set_classes (retag_class g <$> classes s) s.

(** The registrar consults the classification of fields: some change of
    field metadata changes what a registration returns or raises. *)
Definition registrar_consults_classification : Prop :=
  exists g o cls s,
    (pytree_dataclass o cls (retag_store g s)).1
    <> (pytree_dataclass o cls s).1.

(** ** Example classes *)

(** A class object as a class statement leaves it: a name, a metaclass, an
    MRO, the [__init__] of the body if it has one, its annotations and its
    plain class attributes. *)
Definition class_statement (name : string) (meta : metaclass)
  (mro : list class_id) (init : option init_fn)
  (annotations : list (string * annotation)) (attrs : gmap string value)
  : class_obj :=
  {| c_name := name; c_metaclass := meta; c_mro := mro; d_info := None;
     d_init := init; d_annotations := annotations;
     d_dataclass_fields := None; d_MutableInitProxy := None;
     d_tree_flatten_with_keys := false; d_tree_unflatten := false;
     d_key_for_field := None; d_setattr_is_object_setattr := false;
     d_hash_is_None := false; d_attrs := attrs |}.

(** [Struct] itself: it defines the codec methods and is not registered. *)
Definition Struct_class : class_obj :=
  {| c_name := "Struct"; c_metaclass := AbstractStructMetaclass;
     c_mro := [0]; d_info := None; d_init := None; d_annotations := [];
     d_dataclass_fields := None; d_MutableInitProxy := None;
     d_tree_flatten_with_keys := true; d_tree_unflatten := true;
     d_key_for_field := None; d_setattr_is_object_setattr := false;
     d_hash_is_None := false; d_attrs := ∅ |}.

Definition child_field : annotation := AnnField ∅ None.
Definition static_field : annotation :=
  AnnField {[ "pytree_node" := VBool false ]} None.

(** The hand-written initialisers of the examples: number 0 assigns nothing;
    number 1 assigns the fields [a] and [b] and an attribute [scratch] that is
    not a field; the others raise. *)
Definition example_functions (n : nat) (a : call_args)
  (self : gmap string value) : result unit * gmap string value :=
  match n with
  | 0 => (Ok tt, self)
  | 1 => (Ok tt, <["scratch" := VInt 0]>
                   (<["b" := VInt 2]> (<["a" := VInt 1]> self)))
  | _ => (Raise (UserException n), self)
  end.

Definition no_args : call_args := {| args := []; kwargs := ∅ |}.

Definition store_of (cs : gmap class_id class_obj) : store :=
  {| classes := cs; jax_registry := ∅; functions := example_functions |}.

(** [Point] has two child fields; [Tagged] a child and a static field. *)
Definition Point : class_id := 1.
Definition Tagged : class_id := 2.
Definition point_store : store :=
  (pytree_dataclass default_options Tagged
     (pytree_dataclass default_options Point
        (store_of
           {[ 0 := Struct_class;
              Point := class_statement "Point" AbstractStructMetaclass
                         [Point; 0] None
                         [("x", child_field); ("y", child_field)] ∅;
              Tagged := class_statement "Tagged" AbstractStructMetaclass
                          [Tagged; 0] None
                          [("value", child_field); ("tag", static_field)] ∅
           ]})).2).2.

Definition a_point : instance :=
  {| i_class := Point;
     i_attrs := {[ "x" := VInt 1; "y" := VInt 2 ]} |}.

Definition a_tagged : instance :=
  {| i_class := Tagged;
     i_attrs := {[ "value" := VInt 7; "tag" := VStr "t" ]} |}.
Definition tag_field : Field :=
  {| f_name := "tag"; f_metadata := {[ "pytree_node" := VBool false ]};
     f_default := None |}.
Definition tagged_fields : list Field :=
  [ {| f_name := "value"; f_metadata := ∅; f_default := None |};
    tag_field ].

(** Three classes in a chain: [A] registered with the defaults, [B(A)]
    registered with [init=False] so that it inherits the initialiser
    generated for [A], and [C(B)], not registered yet. *)
Definition A : class_id := 1.
Definition B : class_id := 2.
Definition C : class_id := 3.
Definition init_false : options :=
  {| opt_has_implicitly_inherited_fields := false;
     opt_use_mutable_proxy_in_init := true;
     opt_overwrite_parent_init := false;
     opt_init := false;
     opt_repr := None; opt_eq := true; opt_order := false;
     opt_match_args := false; opt_kw_only := false |}.
Definition chain_A : store :=
  (pytree_dataclass default_options A
     (store_of
        {[ 0 := Struct_class;
           A := class_statement "A" AbstractStructMetaclass [A; 0] None
                  [("x", child_field)] ∅;
           B := class_statement "B" AbstractStructMetaclass [B; A; 0] None
                  [("x", child_field)] ∅;
           C := class_statement "C" AbstractStructMetaclass [C; B; A; 0]
                  None [("x", child_field)] ∅ ]})).2.
Definition chain_store : store := (pytree_dataclass init_false B chain_A).2.

(** A registered class [A] with a field [x], and a subclass [B(A)] that
    annotates only a new field [y]. *)
Definition subclass_declared : store :=
  store_of
    {[ 0 := Struct_class;
       A := class_statement "A" AbstractStructMetaclass [A; 0] None
              [("x", child_field)] ∅;
       B := class_statement "B" AbstractStructMetaclass [B; A; 0] None
              [("y", child_field)] ∅ ]}.
Definition subclass_store : store :=
  (pytree_dataclass default_options A subclass_declared).2.
Definition one_two : call_args :=
  {| args := [VInt 1; VInt 2]; kwargs := ∅ |}.
(** The store left by the failed registration of [B]. *)
Definition subclass_failed : store :=
  (pytree_dataclass default_options B subclass_store).2.

(** A class with a field [x] of default 3 and a hand-written initialiser
    that assigns nothing, before and after registration. *)
Definition Foo : class_id := 1.
Definition foo_declared : store :=
  store_of
    {[ 0 := Struct_class;
       Foo := class_statement "Foo" AbstractStructMetaclass [Foo; 0]
                (Some (user_init 0))
                [("x", AnnField ∅ (Some (VInt 3)))]
                {[ "x" := VInt 3 ]} ]}.
Definition foo_store : store :=
  (pytree_dataclass default_options Foo foo_declared).2.

(** A class with fields [a] and [b] whose hand-written initialiser assigns
    both and a further attribute, before and after registration. *)
Definition Bar : class_id := 1.
Definition bar_declared : store :=
  store_of
    {[ 0 := Struct_class;
       Bar := class_statement "Bar" AbstractStructMetaclass [Bar; 0]
                (Some (user_init 1))
                [("a", child_field); ("b", static_field)] ∅ ]}.
Definition bar_store : store :=
  (pytree_dataclass default_options Bar bar_declared).2.

(** A [Point] whose field [y] was never set. *)
Definition a_broken_point : instance :=
  {| i_class := Point; i_attrs := {[ "x" := VInt 1 ]} |}.

(** The chain of classes before any of them is registered. *)
Definition chain_declared : store :=
  store_of
    {[ 0 := Struct_class;
       A := class_statement "A" AbstractStructMetaclass [A; 0] None
              [("x", child_field)] ∅;
       B := class_statement "B" AbstractStructMetaclass [B; A; 0] None
              [("x", child_field)] ∅;
       C := class_statement "C" AbstractStructMetaclass [C; B; A; 0]
              None [("x", child_field)] ∅ ]}.

(** A class with a hand-written initialiser whose body already defines an
    attribute [_MutableInitProxy], before and after the attempt to register
    it. *)
Definition Clash : class_id := 1.
Definition Clash_class : class_obj :=
  {| c_name := "Clash"; c_metaclass := AbstractStructMetaclass;
     c_mro := [Clash; 0]; d_info := None; d_init := Some (user_init 1);
     d_annotations := [("a", child_field); ("b", child_field)];
     d_dataclass_fields := None; d_MutableInitProxy := Some None;
     d_tree_flatten_with_keys := false; d_tree_unflatten := false;
     d_key_for_field := None; d_setattr_is_object_setattr := false;
     d_hash_is_None := false; d_attrs := ∅ |}.
Definition clash_declared : store :=
  store_of {[ 0 := Struct_class; Clash := Clash_class ]}.
Definition clash_store : store :=
  (pytree_dataclass default_options Clash clash_declared).2.

(** A class whose hand-written initialiser raises, before and after
    registration. *)
Definition Baz : class_id := 1.
Definition Baz_class : class_obj :=
  class_statement "Baz" AbstractStructMetaclass [Baz; 0]
    (Some (user_init 2)) [("a", child_field)] ∅.
Definition baz_declared : store :=
  store_of {[ 0 := Struct_class; Baz := Baz_class ]}.
Definition baz_store : store :=
  (pytree_dataclass default_options Baz baz_declared).2.

(** The class objects of [A] and [B] as their class statements leave them
    in [chain_declared]. *)
Definition A_class : class_obj :=
  class_statement "A" AbstractStructMetaclass [A; 0] None
    [("x", child_field)] ∅.
Definition B_class : class_obj :=
  class_statement "B" AbstractStructMetaclass [B; A; 0] None
    [("x", child_field)] ∅.

(** ** The tree codec *)

Section Codec.
Variable s : store.
Variable self : instance.

Local Abbreviation get := (attr s self).
Local Abbreviation key := (Struct.key_for_field s self).
Local Abbreviation field_items := (field_items s self).

Lemma getattr_attr name v : getattr s self name = Ok v -> get name = v.
Proof. unfold attr. by intros ->. Qed.

Lemma has_fields_cons f fields :
  has_fields s self (f :: fields) ->
  getattr s self (f_name f) = Ok (get (f_name f))
  /\ has_fields s self fields.
Proof.
  intros H. apply Forall_cons in H as [[v Hv] H]. split; [|done].
  by rewrite (getattr_attr _ _ Hv).
Qed.

Lemma children_of_cons f fields :
  children_of (f :: fields)
  = if is_child f then f :: children_of fields else children_of fields.
Proof.
  unfold children_of. rewrite filter_cons.
  destruct (is_child f); by case_decide.
Qed.

Lemma statics_of_cons f fields :
  statics_of (f :: fields)
  = if is_child f then statics_of fields else f :: statics_of fields.
Proof.
  unfold statics_of. rewrite filter_cons.
  destruct (is_child f); case_decide; naive_solver.
Qed.

(** What the loop of [tree_flatten_with_keys] returns on an object that
    has all the remaining fields, for any state of the accumulators. *)
Lemma tree_flatten_with_keys_loop_ok fields names children statics :
  has_fields s self fields ->
  Struct.tree_flatten_with_keys_loop s self fields names children statics
  = Ok (children
          ++ ((fun f => (key (f_name f), get (f_name f)))
                <$> children_of fields),
        {| child_field_names := names ++ (f_name <$> children_of fields);
           static_fields :=
             setattr_all statics (field_items (statics_of fields)) |}).
Proof.
  revert names children statics.
  induction fields as [|f fields IH]; intros names children statics H.
  - cbn. by rewrite !app_nil_r.
  - apply has_fields_cons in H as [Hf H].
    cbn [Struct.tree_flatten_with_keys_loop].
    rewrite Hf. cbn [result_bind]. fold (is_child f).
    rewrite (children_of_cons f), (statics_of_cons f).
    destruct (is_child f) eqn:Hc; cbn [negb]; rewrite IH by done.
    + cbn. by rewrite <- !app_assoc.
    + done.
Qed.

(** [tree_flatten] runs the same loop with the keys left out. *)
Lemma tree_flatten_loop_strips_keys fields names children statics :
  Struct.tree_flatten_loop s self fields names children.*2 statics
  = result_map (fun r => (r.1.*2, r.2))
      (Struct.tree_flatten_with_keys_loop s self fields names children
         statics).
Proof.
  revert names children statics.
  induction fields as [|f fields IH]; intros names children statics.
  - done.
  - cbn [Struct.tree_flatten_loop Struct.tree_flatten_with_keys_loop].
    destruct (getattr s self (f_name f)) as [v|e]; [|done].
    cbn [result_bind].
    destruct (negb (truthy (is_pytree_node_field f))).
    + apply IH.
    + rewrite <- IH. by rewrite fmap_app.
Qed.

Lemma tree_flatten_strips_keys :
  Struct.tree_flatten s self
  = result_map (fun r => (r.1.*2, r.2)) (Struct.tree_flatten_with_keys s self).
Proof.
  unfold Struct.tree_flatten, Struct.tree_flatten_with_keys.
  destruct (dataclasses_fields s (i_class self)) as [fields|e]; [|done].
  apply (tree_flatten_loop_strips_keys fields [] [] ∅).
Qed.

(** Looking a name up after a run of assignments that all store the
    object's own value for the name they assign. *)
Lemma lookup_setattr_all (m : gmap string value) fields name :
  setattr_all m (field_items fields) !! name
  = if decide (name ∈ f_name <$> fields) then Some (get name)
    else m !! name.
Proof.
  revert m. induction fields as [|f fields IH]; intros m.
  - done.
  - change (setattr_all m (field_items (f :: fields)))
      with (setattr_all (<[f_name f := get (f_name f)]> m)
              (field_items fields)).
    rewrite IH, fmap_cons.
    destruct (decide (name ∈ f_name <$> fields)) as [Hin|Hin].
    + rewrite decide_True by (by apply elem_of_cons; right). done.
    + destruct (decide (name = f_name f)) as [->|Hne].
      * rewrite decide_True by (by apply elem_of_cons; left).
        by rewrite lookup_insert_eq.
      * rewrite decide_False by (by intros [?|?]%elem_of_cons).
        by rewrite lookup_insert_ne.
Qed.

Lemma zip_field_items fields :
  zip (f_name <$> fields) ((fun f => get (f_name f)) <$> fields)
  = field_items fields.
Proof. induction fields as [|f fields IH]; [done|]. cbn. by rewrite IH. Qed.

Lemma elem_of_names_split fields name :
  name ∈ f_name <$> fields
  <-> name ∈ f_name <$> children_of fields
      \/ name ∈ f_name <$> statics_of fields.
Proof.
  unfold children_of, statics_of. rewrite !list_elem_of_fmap. split.
  - intros (f & -> & Hf). destruct (is_child f) eqn:Hc.
    + left. exists f. split; [done|]. apply list_elem_of_filter.
      split; [by rewrite Hc|done].
    + right. exists f. split; [done|]. apply list_elem_of_filter.
      split; [rewrite Hc; naive_solver|done].
  - intros [(f & -> & Hf)|(f & -> & Hf)];
      apply list_elem_of_filter in Hf as [_ Hf]; eauto.
Qed.

End Codec.

(** The result of [tree_flatten_with_keys] on an object that has all the
    fields of its class, in closed form. *)
Lemma tree_flatten_with_keys_ok s self fields :
  dataclasses_fields s (i_class self) = Ok fields ->
  has_fields s self fields ->
  Struct.tree_flatten_with_keys s self
  = Ok ((fun f => (Struct.key_for_field s self (f_name f),
                   attr s self (f_name f))) <$> children_of fields,
        {| child_field_names := f_name <$> children_of fields;
           static_fields :=
             setattr_all ∅ (field_items s self (statics_of fields)) |}).
Proof.
  intros Hfields Hhas. unfold Struct.tree_flatten_with_keys.
  rewrite Hfields. cbn [result_bind].
  by rewrite tree_flatten_with_keys_loop_ok.
Qed.

Lemma has_fields_getattr s self fields f :
  has_fields s self fields -> f ∈ fields ->
  getattr s self (f_name f) = Ok (attr s self (f_name f)).
Proof.
  intros Hhas Hf. unfold has_fields in Hhas. rewrite Forall_forall in Hhas.
  destruct (Hhas f Hf) as [v Hv]. by rewrite (getattr_attr _ _ _ _ Hv).
Qed.

(** C9. [tree_flatten] returns what [tree_flatten_with_keys] returns with
    the keys dropped: the same metadata, and as children the second
    components of the (key, value) pairs in the same order; when one raises,
    the other raises the same exception. *)
Theorem tree_flatten_is_tree_flatten_with_keys_without_keys s self :
  Struct.tree_flatten s self
  = match Struct.tree_flatten_with_keys s self with
    | Ok (children, metadata) => Ok (children.*2, metadata)
    | Raise e => Raise e
    end.
Proof.
  rewrite tree_flatten_strips_keys.
  by destruct (Struct.tree_flatten_with_keys s self) as [[children md]|e].
Qed.

(** C2. On an instance that has all the fields of its class, both flatten
    operations return metadata whose [child_field_names] is the declared
    field list, in order, restricted to the child fields; the children have
    the same length and hold the values of those fields in that order; and
    the static fields are exactly the keys of [static_fields], each mapped
    to its value. *)
Theorem flatten_metadata_follows_field_order s self fields :
  dataclasses_fields s (i_class self) = Ok fields ->
  has_fields s self fields ->
  exists children metadata,
    Struct.tree_flatten_with_keys s self = Ok (children, metadata)
    /\ Struct.tree_flatten s self = Ok (children.*2, metadata)
    /\ child_field_names metadata
       = f_name <$> filter (fun f => is_child f) fields
    /\ length children = length (child_field_names metadata)
    /\ Forall2 (fun name kv => getattr s self name = Ok kv.2)
         (child_field_names metadata) children
    /\ (forall name,
          name ∈ dom (static_fields metadata)
          <-> exists f, f ∈ fields /\ is_child f = false /\ f_name f = name)
    /\ (forall f, f ∈ fields -> is_child f = false ->
          exists v, getattr s self (f_name f) = Ok v
                    /\ static_fields metadata !! f_name f = Some v).
Proof.
  intros Hfields Hhas.
  pose proof (tree_flatten_with_keys_ok _ _ _ Hfields Hhas) as Hflat.
  eexists _, _. split; [exact Hflat|].
  split; [by rewrite tree_flatten_strips_keys, Hflat|].
  cbn [child_field_names static_fields].
  assert (Hstatic : forall name,
             name ∈ f_name <$> statics_of fields
             <-> exists f, f ∈ fields /\ is_child f = false /\ f_name f = name).
  { intros name. unfold statics_of. rewrite list_elem_of_fmap. split.
    - intros (f & -> & [Hc Hf]%list_elem_of_filter). exists f.
      split; [done|]. split; [|done]. by destruct (is_child f).
    - intros (f & Hf & Hc & <-). exists f. split; [done|].
      apply list_elem_of_filter. split; [|done]. rewrite Hc. naive_solver. }
  split; [done|]. split; [by rewrite !length_fmap|]. split.
  - apply Forall2_fmap. apply Forall_Forall2_diag, Forall_forall.
    intros f [_ Hf]%list_elem_of_filter. cbn.
    by apply (has_fields_getattr _ _ fields).
  - split.
    + intros name. rewrite elem_of_dom, lookup_setattr_all, <- Hstatic.
      case_decide; [by split; eauto|].
      rewrite lookup_empty. split; [by intros []|done].
    + intros f Hf Hc. exists (attr s self (f_name f)).
      split; [by apply (has_fields_getattr _ _ fields)|].
      rewrite lookup_setattr_all. rewrite decide_True; [done|].
      apply Hstatic. eauto.
Qed.



(** ** Registration *)

(** The two checks read the store and leave it as it is. *)
Lemma parent_init_check_store o cls c s :
  (parent_init_check o cls c s).2 = s.
Proof.
  unfold parent_init_check, check_parent_init, bind, gets, raise, ret.
  destruct (opt_init o && bool_decide (d_init c = None)
            && negb (opt_overwrite_parent_init o)); [|done].
  destruct (class_lookup s cls d_info) as [i|]; cbn.
  - destruct (generated_init i) as [[g|]|]; cbn; [| |done];
      by case_bool_decide.
  - by case_bool_decide.
Qed.

Lemma check_fields_store o cls c s : (check_fields o cls c s).2 = s.
Proof.
  unfold check_fields, bind, gets. cbn.
  destruct (dataclasses_fields s cls) as [fields|e]; [|done].
  destruct (opt_has_implicitly_inherited_fields o); by case_bool_decide.
Qed.

Lemma pair_with_store {A} (x : result A * store) (s : store) :
  x.2 = s -> x = (x.1, s).
Proof. destruct x. cbn. by intros ->. Qed.

(** The decorator, phase by phase. *)
Lemma pytree_dataclass_phases o cls s :
  pytree_dataclass o cls s
  = match classes s !! cls with
    | None => (Raise (TypeError (Other 0)), s)
    | Some c =>
        if bool_decide (is_Some (d_info c))
        then (Raise (ValueError CannotApplyTwice), s)
        else
          match parent_init_check o cls c s with
          | (Raise e, s0) => (Raise e, s0)
          | (Ok _, s0) =>
              let s1 := transformed o cls c s0 in
              match check_fields o cls c s1 with
              | (Raise e, s2) => (Raise e, s2)
              | (Ok _, s2) =>
                  if hasattr_tree_flatten_with_keys s2 cls
                     && hasattr_tree_unflatten s2 cls
                  then
                    match proxy_phase o cls c (jax_registered cls s2) with
                    | (Raise e, s3) => (Raise e, s3)
                    | (Ok _, s3) => (Ok cls, s3)
                    end
                  else (Raise (AttributeError
                                 (MustDefineTreeMethods (c_name c))), s2)
              end
          end
    end.
Proof.
  unfold pytree_dataclass, bind at 1.
  destruct (classes s !! cls) as [c|]; [|done].
  case_bool_decide; [done|].
  unfold bind at 1. fold (parent_init_check o cls c).
  destruct (parent_init_check o cls c s) as [[[]|e] s0]; [|done].
  unfold bind at 1, modify at 1. unfold bind at 1, modify at 1.
  unfold bind at 1, gets at 1. unfold bind at 1, modify at 1.
  fold (transformed o cls c s0). cbv zeta.
  unfold bind at 1.
  destruct (check_fields o cls c (transformed o cls c s0)) as [[[]|e] s2];
    [|done].
  unfold bind at 1, gets at 1.
  destruct (hasattr_tree_flatten_with_keys s2 cls
            && hasattr_tree_unflatten s2 cls);
    cbn [negb]; unfold bind at 1; [|done].
  unfold ret at 1. unfold bind at 1, modify at 1.
  fold (jax_registered cls s2).
  unfold bind at 1. fold (proxy_phase o cls c).
  by destruct (proxy_phase o cls c (jax_registered cls s2)) as [[[]|e] s3].
Qed.

(** Every call ends in one of the ways that [outcome] lists. *)
Lemma pytree_dataclass_inv o cls s r s' :
  pytree_dataclass o cls s = (r, s') -> outcome o cls s r s'.
Proof.
  rewrite pytree_dataclass_phases.
  destruct (classes s !! cls) as [c|] eqn:Hc;
    [|intros [= <- <-]; by constructor].
  case_bool_decide as Hinfo; [intros [= <- <-]; by econstructor|].
  assert (d_info c = None) as Hnone.
  { destruct (d_info c); [|done]. by destruct Hinfo. }
  rewrite (pair_with_store _ _ (parent_init_check_store o cls c s)).
  destruct (parent_init_check o cls c s).1 as [[]|e] eqn:Hp1;
    [|intros [= <- <-]; eapply parent_init_rejected; eauto;
      by rewrite (pair_with_store _ _ (parent_init_check_store o cls c s)),
           Hp1].
  assert (parent_init_check o cls c s = (Ok tt, s)) as Hp.
  { by rewrite (pair_with_store _ _ (parent_init_check_store o cls c s)),
      Hp1. }
  cbv zeta.
  pose proof (pair_with_store _ _
                (check_fields_store o cls c (transformed o cls c s))) as Hf.
  rewrite Hf.
  destruct (check_fields o cls c (transformed o cls c s)).1 as [[]|e];
    [|intros [= <- <-]; by eapply fields_rejected].
  destruct (hasattr_tree_flatten_with_keys (transformed o cls c s) cls
            && hasattr_tree_unflatten (transformed o cls c s) cls) eqn:Hm;
    [|intros [= <- <-]; by eapply methods_missing].
  destruct (proxy_phase o cls c (jax_registered cls (transformed o cls c s)))
    as [[[]|e] s3] eqn:Hpp; intros [= <- <-].
  - by eapply registered.
  - by eapply proxy_rejected.
Qed.

(** *** What each phase can raise and what it leaves *)

Lemma parent_init_check_raises o cls c s e s' :
  parent_init_check o cls c s = (Raise e, s') ->
  e = KeyError "generated_init"
  \/ e = PyTreeDataclassSafetyError (OverwritesInheritedInit (c_name c)).
Proof.
  unfold parent_init_check, check_parent_init, bind, gets, raise, ret.
  destruct (opt_init o && bool_decide (d_init c = None)
            && negb (opt_overwrite_parent_init o)); [|done].
  destruct (class_lookup s cls d_info) as [i|]; cbn.
  - destruct (generated_init i) as [[g|]|]; cbn;
      try case_bool_decide; naive_solver.
  - case_bool_decide; naive_solver.
Qed.

Lemma check_fields_raises o cls c s e s' :
  check_fields o cls c s = (Raise e, s') ->
  e = TypeError NotADataclass
  \/ e = PyTreeDataclassSafetyError (NoImplicitlyInheritedFields (c_name c))
  \/ exists explicit actual,
       e = PyTreeDataclassSafetyError
             (BadlyOrderedAttributes (c_name c) explicit actual).
Proof.
  unfold check_fields, bind, gets, dataclasses_fields. cbn.
  destruct (class_lookup s cls d_dataclass_fields) as [fields|];
    [|naive_solver].
  destruct (opt_has_implicitly_inherited_fields o); case_bool_decide;
    naive_solver.
Qed.

Lemma proxy_phase_inv o cls c s r s' :
  proxy_phase o cls c s = (r, s') ->
  (r = Ok tt /\ s' = s
   /\ (d_init c = None \/ opt_use_mutable_proxy_in_init o = false))
  \/ (s' = s
      /\ (r = Raise (TypeError (Other 0))
          \/ r = Raise (ValueError MutableInitProxyAlreadyDefined)))
  \/ (exists original_init c1,
        d_init c = Some original_init
        /\ opt_use_mutable_proxy_in_init o = true
        /\ classes s !! cls = Some c1
        /\ d_MutableInitProxy c1 = None
        /\ r = Ok tt
        /\ s' = with_proxy cls c1 original_init s).
Proof.
  unfold proxy_phase.
  destruct (d_init c) as [original_init|];
    [|intros [= <- <-]; naive_solver].
  destruct (opt_use_mutable_proxy_in_init o);
    [|intros [= <- <-]; naive_solver].
  unfold install_proxy, bind at 1.
  destruct (classes s !! cls) as [c1|] eqn:Hc1;
    [|intros [= <- <-]; naive_solver].
  case_bool_decide as Hp; [intros [= <- <-]; naive_solver|].
  intros [= <- <-]. right. right. exists original_init, c1.
  repeat split; try done.
  destruct (d_MutableInitProxy c1); [|done]. by destruct Hp.
Qed.

(** *** The store after the transformation *)

Lemma alter_Some {A} (f : A -> A) (m : gmap class_id A) i x :
  m !! i = Some x -> alter f i m = <[i := f x]> m.
Proof.
  intros H. apply map_eq. intros j. rewrite lookup_alter, lookup_insert.
  destruct (decide (i = j)) as [<-|]; by rewrite ?H.
Qed.

Lemma update_class_Some cls f s c :
  classes s !! cls = Some c ->
  update_class cls f s = set_classes (<[cls := f c]> (classes s)) s.
Proof. intros H. unfold update_class. by rewrite (alter_Some _ _ _ _ H). Qed.

(** The class object that the transformation leaves for [cls]. *)
Lemma transformed_classes o cls c s :
  classes s !! cls = Some c ->
  exists c',
    transformed o cls c s = set_classes (<[cls := c']> (classes s)) s
    /\ is_Some (d_info c')
    /\ c_name c' = c_name c
    /\ c_metaclass c' = c_metaclass c
    /\ c_mro c' = c_mro c
    /\ d_MutableInitProxy c' = d_MutableInitProxy c
    /\ d_init c'
       = match d_init c with
         | Some i => Some i
         | None => if opt_init o then Some (generated_init_of cls) else None
         end
    /\ is_Some (d_dataclass_fields c').
Proof.
  intros Hc. unfold transformed.
  rewrite (update_class_Some _ _ _ _ Hc).
  set (s1 := set_classes _ s).
  assert (classes s1 !! cls = Some (set_info (Some
            {| has_implicitly_inherited_fields :=
                 Some (opt_has_implicitly_inherited_fields o);
               use_mutable_proxy_in_init :=
                 Some (opt_use_mutable_proxy_in_init o);
               is_init_proxy := Some false;
               generated_init := None |}) c)) as Hc1.
  { unfold s1. cbn. by rewrite lookup_insert_eq. }
  unfold dataclasses_dataclass. rewrite Hc1.
  rewrite (update_class_Some _ _ _ _ Hc1).
  set (s2 := set_classes _ s1).
  set (c2 := (if opt_init o then _ else _) : class_obj) in s2.
  assert (classes s2 !! cls = Some c2) as Hc2.
  { unfold s2. cbn. by rewrite lookup_insert_eq. }
  rewrite (update_class_Some _ _ _ _ Hc2).
  eexists. split.
  { unfold s2, s1, set_classes. cbn. by rewrite !insert_insert_eq. }
  unfold c2, set_new_init. cbn.
  destruct (d_init c) eqn:Hi; destruct (opt_init o); cbn; rewrite ?Hi; cbn;
    repeat split; eauto.
Qed.

Lemma transformed_registry o cls c s :
  jax_registry (transformed o cls c s) = jax_registry s.
Proof.
  unfold transformed, dataclasses_dataclass, update_class.
  by destruct (classes _ !! cls).
Qed.

Lemma transformed_functions o cls c s :
  functions (transformed o cls c s) = functions s.
Proof.
  unfold transformed, dataclasses_dataclass, update_class.
  by destruct (classes _ !! cls).
Qed.

(** *** The store after the proxy is installed *)

Lemma new_class_id_fresh s : classes s !! new_class_id s = None.
Proof. apply not_elem_of_dom. unfold new_class_id. apply is_fresh. Qed.

Lemma with_proxy_classes cls c original_init s :
  classes s !! cls = Some c ->
  let proxy := new_class_id s in
  proxy <> cls
  /\ classes (with_proxy cls c original_init s)
     = <[cls := set_init
                  (Some (replacement_init_of cls proxy original_init))
                  (set_MutableInitProxy (Some (Some proxy)) c)]>
         (<[proxy := MutableInitProxy_class c proxy original_init]>
            (classes s))
  /\ jax_registry (with_proxy cls c original_init s) = jax_registry s
  /\ functions (with_proxy cls c original_init s) = functions s.
Proof.
  intros Hc proxy.
  assert (proxy <> cls) as Hne.
  { intros Heq. pose proof (new_class_id_fresh s) as Hf.
    fold proxy in Hf. rewrite Heq, Hc in Hf. done. }
  split; [done|]. unfold with_proxy. fold proxy.
  set (s1 := set_classes _ s).
  assert (classes s1 !! cls = Some c) as Hc1.
  { unfold s1. cbn. by rewrite lookup_insert_ne. }
  rewrite (update_class_Some _ _ s1 _ Hc1).
  set (s2 := set_classes _ s1).
  assert (classes s2 !! cls
          = Some (set_MutableInitProxy (Some (Some proxy)) c)) as Hc2.
  { unfold s2. cbn. by rewrite lookup_insert_eq. }
  rewrite (update_class_Some _ _ s2 _ Hc2).
  split; [|done]. cbn. by rewrite insert_insert_eq.
Qed.

Lemma jax_registered_classes cls s :
  classes (jax_registered cls s) = classes s.
Proof. done. Qed.

Lemma jax_registered_functions cls s :
  functions (jax_registered cls s) = functions s.
Proof. done. Qed.

Lemma jax_registered_registry cls s :
  jax_registry (jax_registered cls s) = {[cls]} ∪ jax_registry s.
Proof. done. Qed.

(** What a successful registration leaves: the class of [cls] after the
    transformation, registered with JAX, and the proxy when one is
    installed. *)
Lemma registered_store o cls s r s' c :
  pytree_dataclass o cls s = (Ok r, s') ->
  classes s !! cls = Some c ->
  r = cls
  /\ exists c1,
       transformed o cls c s = set_classes (<[cls := c1]> (classes s)) s
       /\ is_Some (d_info c1)
       /\ c_metaclass c1 = c_metaclass c
       /\ c_mro c1 = c_mro c
       /\ is_Some (d_dataclass_fields c1)
       /\ functions s' = functions s
       /\ jax_registry s' = {[cls]} ∪ jax_registry s
       /\ ((classes s' = <[cls := c1]> (classes s)
            /\ (d_init c = None \/ opt_use_mutable_proxy_in_init o = false))
           \/ (exists original_init proxy,
                 d_init c = Some original_init
                 /\ opt_use_mutable_proxy_in_init o = true
                 /\ proxy <> cls
                 /\ classes s !! proxy = None
                 /\ classes s'
                    = <[cls := set_init
                                 (Some (replacement_init_of cls proxy
                                          original_init))
                                 (set_MutableInitProxy (Some (Some proxy))
                                    c1)]>
                        (<[proxy := MutableInitProxy_class c1 proxy
                                      original_init]>
                           (<[cls := c1]> (classes s))))).
Proof.
  intros Hreg Hc. apply pytree_dataclass_inv in Hreg.
  assert (r = cls) as -> by (by inversion Hreg).
  inversion Hreg as [| | | | | |c0 s0 Hc0 Hnone Hp Hf Hm Hpp Hr Hs].
  subst s0. rewrite Hc in Hc0. injection Hc0 as <-. split; [done|].
  destruct (transformed_classes o cls c s Hc)
    as (c1 & Ht & Hinfo & _ & Hmeta & Hmro & _ & _ & Hdf).
  exists c1. split; [done|]. do 4 (split; [done|]).
  apply proxy_phase_inv in Hpp
    as [(_ & -> & Hno)|[(_ & [[=]|[=]])|
        (orig & c2 & Hinit & Huse & Hc2 & Hpnone & _ & ->)]].
  - rewrite jax_registered_functions, jax_registered_registry,
      jax_registered_classes, transformed_functions, transformed_registry.
    do 2 (split; [done|]). left. by rewrite Ht.
  - destruct (with_proxy_classes cls c2 orig
                (jax_registered cls (transformed o cls c s)) Hc2)
      as (Hne & Hcl & Hreg' & Hfun).
    rewrite Hfun, Hreg', Hcl.
    rewrite jax_registered_functions, jax_registered_registry,
      jax_registered_classes, transformed_functions, transformed_registry.
    do 2 (split; [done|]). right.
    rewrite jax_registered_classes, Ht in Hc2. cbn in Hc2.
    rewrite lookup_insert_eq in Hc2. injection Hc2 as ->.
    exists orig, (new_class_id (jax_registered cls (transformed o cls c s))).
    do 3 (split; [done|]). split.
    + pose proof (new_class_id_fresh
                    (jax_registered cls (transformed o cls c s))) as Hfr.
      revert Hfr Hne.
      generalize (new_class_id (jax_registered cls (transformed o cls c s))).
      intros proxy Hfr Hne.
      rewrite jax_registered_classes, Ht in Hfr. cbn in Hfr.
      by rewrite lookup_insert_ne in Hfr.
    + by rewrite Ht.
Qed.

(** *** The instantiation guard *)

Lemma guard_rejects_unregistered s cls c a :
  classes s !! cls = Some c -> d_info c = None ->
  AbstractStructMetaclass_call s cls a
  = Raise (TypeError (CantInstantiateAbstract cls)).
Proof.
  intros Hc Hnone. unfold AbstractStructMetaclass_call,
    is_pytree_dataclass_type. rewrite Hc, Hnone.
  by rewrite bool_decide_eq_false_2 by (by intros []).
Qed.

Lemma guard_accepts_marked s cls c a :
  classes s !! cls = Some c -> is_Some (d_info c) ->
  AbstractStructMetaclass_call s cls a = type_call s cls a.
Proof.
  intros Hc Hsome. unfold AbstractStructMetaclass_call,
    is_pytree_dataclass_type. rewrite Hc.
  by rewrite bool_decide_eq_true_2.
Qed.

Lemma registered_class_marked o cls s r s' :
  pytree_dataclass o cls s = (Ok r, s') ->
  exists c', classes s' !! cls = Some c' /\ is_Some (d_info c').
Proof.
  intros Hreg.
  destruct (classes s !! cls) as [c|] eqn:Hc.
  - destruct (registered_store _ _ _ _ _ _ Hreg Hc)
      as (_ & c1 & _ & Hinfo & _ & _ & _ & _ & _ &
          [[-> _]|(orig & proxy & _ & _ & _ & _ & ->)]).
    + exists c1. by rewrite lookup_insert_eq.
    + eexists. rewrite lookup_insert_eq. split; [done|]. done.
  - apply pytree_dataclass_inv in Hreg. inversion Hreg; congruence.
Qed.

(** *** How the safety checks fail *)

Lemma cannot_apply_twice_inv o cls s s' :
  outcome o cls s (Raise (ValueError CannotApplyTwice)) s' ->
  s' = s /\ exists c, classes s !! cls = Some c /\ is_Some (d_info c).
Proof.
  intros Ho.
  inversion Ho as [|c Hc Hi|c e Hc Hn Hp|c e Hc Hn Hp Hf| |c e s0 Hc Hn Hp Hf Hpp|].
  - eauto.
  - apply parent_init_check_raises in Hp as [?|?]; congruence.
  - apply check_fields_raises in Hf as [?|[?|(? & ? & ?)]]; congruence.
  - apply proxy_phase_inv in Hpp
      as [([=] & _)|[(_ & [[=]|[=]])|(? & ? & _ & _ & _ & _ & [=] & _)]].
Qed.

Lemma overwrites_inherited_init_inv o cls s s' name :
  outcome o cls s
    (Raise (PyTreeDataclassSafetyError (OverwritesInheritedInit name))) s' ->
  s' = s /\ exists c, classes s !! cls = Some c /\ d_info c = None.
Proof.
  intros Ho.
  inversion Ho as [| |c e Hc Hn Hp|c e Hc Hn Hp Hf| |c e s0 Hc Hn Hp Hf Hpp|].
  - eauto.
  - apply check_fields_raises in Hf as [?|[?|(? & ? & ?)]]; congruence.
  - apply proxy_phase_inv in Hpp
      as [([=] & _)|[(_ & [[=]|[=]])|(? & ? & _ & _ & _ & _ & [=] & _)]].
Qed.

Lemma safety_check_failure_inv o cls s e s' :
  outcome o cls s (Raise e) s' -> safety_check_failure e ->
  s' = s \/ exists c, classes s !! cls = Some c
                      /\ s' = transformed o cls c s.
Proof.
  intros Ho Hfail.
  inversion Ho as [| | | | |c e0 s0 Hc Hn Hp Hf Hpp|]; subst; eauto.
  apply proxy_phase_inv in Hpp
    as [([=] & _)|[(_ & [[= He]|[= He]])|(? & ? & _ & _ & _ & _ & [=] & _)]];
    rewrite He in Hfail; contradiction.
Qed.

Lemma transformed_dom o cls c s :
  classes s !! cls = Some c ->
  dom (classes (transformed o cls c s)) = dom (classes s).
Proof.
  intros Hc. destruct (transformed_classes o cls c s Hc) as (c' & -> & _).
  cbn. rewrite dom_insert_L. apply elem_of_dom_2 in Hc.
  apply set_eq. intros x. rewrite elem_of_union, elem_of_singleton.
  split; [by intros [->|?]|by right].
Qed.

(** ** The claims about registration and the guard *)

(** What the guard decides by is the info attribute of the class's own
    dictionary.  After a registration that returned, a class whose own
    dictionary carries no info attribute fails with the abstract-type error,
    whatever it inherits from; the registered class passes the guard and is
    constructed normally, and so is any class flagged as an init proxy; the
    proxy that a registration installs is flagged.  Whether a class whose
    dictionary carries the attribute completed its registration is not
    part of this statement. *)
Lemma guard_decides_by_the_info_attribute o parent s s' r sub c a :
  pytree_dataclass o parent s = (Ok r, s') ->
  classes s' !! sub = Some c ->
  d_info c = None ->
  AbstractStructMetaclass_call s' sub a
  = Raise (TypeError (CantInstantiateAbstract sub))
  /\ AbstractStructMetaclass_call s' parent a = type_call s' parent a
  /\ (forall proxy cp i,
        classes s' !! proxy = Some cp -> d_info cp = Some i ->
        is_init_proxy i = Some true ->
        AbstractStructMetaclass_call s' proxy a = type_call s' proxy a)
  /\ (forall c0 original_init,
        classes s !! parent = Some c0 -> d_init c0 = Some original_init ->
        opt_use_mutable_proxy_in_init o = true ->
        exists proxy cp i,
          (classes s' !! parent ≫= d_MutableInitProxy) = Some (Some proxy)
          /\ classes s' !! proxy = Some cp /\ d_info cp = Some i
          /\ is_init_proxy i = Some true).
Proof.
  intros Hreg Hsub Hnone. split; [by eapply guard_rejects_unregistered|].
  split.
  { destruct (registered_class_marked _ _ _ _ _ Hreg) as (c' & Hc' & Hi).
    by eapply guard_accepts_marked. }
  split.
  { intros proxy cp i Hp Hi _. eapply guard_accepts_marked; [done|].
    by rewrite Hi. }
  intros c0 orig Hc0 Hinit Huse.
  destruct (registered_store _ _ _ _ _ _ Hreg Hc0)
    as (_ & c1 & _ & _ & _ & _ & _ & _ & _ &
        [[_ [?|?]]|(orig' & proxy & _ & _ & Hne & _ & ->)]);
    [congruence..|].
  eexists proxy, _, _. rewrite lookup_insert_eq.
  rewrite lookup_insert_ne by done. rewrite lookup_insert_eq. done.
Qed.

(** C5. Applying [pytree_dataclass] to a class it has already registered
    raises the already-registered error and changes nothing; a class whose
    own dictionary carries no registration, whatever its parents carry,
    never gets that error. *)
Theorem registration_is_once_per_class o cls s r s' o' sub c :
  pytree_dataclass o cls s = (Ok r, s') ->
  classes s' !! sub = Some c ->
  d_info c = None ->
  pytree_dataclass o' cls s' = (Raise (ValueError CannotApplyTwice), s')
  /\ (pytree_dataclass o' sub s').1 <> Raise (ValueError CannotApplyTwice).
Proof.
  intros Hreg Hsub Hnone. split.
  - destruct (registered_class_marked _ _ _ _ _ Hreg) as (c' & Hc' & Hi).
    rewrite pytree_dataclass_phases, Hc'.
    by rewrite bool_decide_eq_true_2.
  - intros Heq.
    pose proof (pytree_dataclass_inv o' sub s' _ _
                  (surjective_pairing _)) as Ho.
    rewrite Heq in Ho. apply cannot_apply_twice_inv in Ho
      as (_ & c2 & Hc2 & Hi).
    rewrite Hsub in Hc2. injection Hc2 as <-. rewrite Hnone in Hi.
    by destruct Hi.
Qed.

(** C8, as amended.  When one of the registration safety checks fails,
    registration aborts before the class is registered with JAX and before
    a proxy class is created.  When it is the already-registered check or the
    check on the inherited initialiser, the store is left exactly as it was;
    after a failure of the latter the class still does not pass the
    instantiation guard. *)
Theorem failed_safety_check_aborts_registration o cls s e s' :
  pytree_dataclass o cls s = (Raise e, s') ->
  safety_check_failure e ->
  jax_registry s' = jax_registry s
  /\ dom (classes s') = dom (classes s)
  /\ functions s' = functions s
  /\ (e = ValueError CannotApplyTwice -> s' = s)
  /\ (forall name,
        e = PyTreeDataclassSafetyError (OverwritesInheritedInit name) ->
        s' = s
        /\ forall a, AbstractStructMetaclass_call s' cls a
                     = Raise (TypeError (CantInstantiateAbstract cls))).
Proof.
  intros Hreg Hfail. apply pytree_dataclass_inv in Hreg.
  assert (jax_registry s' = jax_registry s
          /\ dom (classes s') = dom (classes s)
          /\ functions s' = functions s) as (? & ? & ?).
  { destruct (safety_check_failure_inv _ _ _ _ _ Hreg Hfail)
      as [->|(c & Hc & ->)]; [done|].
    by rewrite transformed_registry, transformed_dom, transformed_functions. }
  do 3 (split; [done|]). split.
  - intros ->. by apply cannot_apply_twice_inv in Hreg as [-> _].
  - intros name ->.
    apply overwrites_inherited_init_inv in Hreg as (-> & c & Hc & Hn).
    split; [done|]. intros a. by eapply guard_rejects_unregistered.
Qed.

(** ** The mutable init proxy *)

Lemma getattr_raises s obj name e :
  getattr s obj name = Raise e -> e = AttributeError (NoAttribute name).
Proof.
  unfold getattr. destruct (i_attrs obj !! name); [done|].
  destruct (class_lookup _ _ _); [done|]. by intros [= <-].
Qed.

Lemma getattr_assigned s obj name v :
  i_attrs obj !! name = Some v -> getattr s obj name = Ok v.
Proof. unfold getattr. by intros ->. Qed.

Lemma getattr_unassigned s obj name :
  i_attrs obj !! name = None ->
  getattr s obj name
  = match class_lookup s (i_class obj) (fun c => d_attrs c !! name) with
    | Some v => Ok v
    | None => Raise (AttributeError (NoAttribute name))
    end.
Proof. unfold getattr. by intros ->. Qed.

(** The copy loop on a proxy that has every field. *)
Lemma copy_fields_ok s proxy fields self :
  has_fields s proxy fields ->
  copy_fields s proxy fields self
  = (Ok tt, setattr_all self (field_items s proxy fields)).
Proof.
  revert self. induction fields as [|f fields IH]; intros self H; [done|].
  apply has_fields_cons in H as [Hf H]. cbn [copy_fields]. rewrite Hf.
  by rewrite IH.
Qed.

(** When the copy loop returns, the proxy had every field. *)
Lemma copy_fields_returns s proxy fields self attrs :
  copy_fields s proxy fields self = (Ok tt, attrs) ->
  has_fields s proxy fields
  /\ attrs = setattr_all self (field_items s proxy fields).
Proof.
  revert self. induction fields as [|f fields IH]; intros self H.
  - cbn in H. injection H as <-. split; [by constructor|done].
  - cbn [copy_fields] in H.
    destruct (getattr s proxy (f_name f)) as [v|e] eqn:Hget;
      [|by destruct e].
    apply IH in H as [Hhas ->]. split.
    + constructor; eauto.
    + cbn. by rewrite (getattr_attr _ _ _ _ Hget).
Qed.

(** The copy loop stops at the first field the proxy has no value for. *)
Lemma copy_fields_fail s proxy pre f post self e :
  has_fields s proxy pre ->
  getattr s proxy (f_name f) = Raise e ->
  (copy_fields s proxy (pre ++ f :: post) self).1
  = Raise (AttributeError (FieldNotSetDuringInit (f_name f))).
Proof.
  revert self. induction pre as [|g pre IH]; intros self H Hf.
  - cbn. rewrite Hf. by rewrite (getattr_raises _ _ _ _ Hf).
  - apply has_fields_cons in H as [Hg H]. cbn [app copy_fields].
    rewrite Hg. by apply IH.
Qed.

(** The copy loop writes no attribute that is not a field. *)
Lemma copy_fields_frame s proxy fields self name :
  name ∉ f_name <$> fields ->
  (copy_fields s proxy fields self).2 !! name = self !! name.
Proof.
  revert self. induction fields as [|f fields IH]; intros self Hn; [done|].
  rewrite fmap_cons, not_elem_of_cons in Hn. destruct Hn as [Hne Hn].
  cbn [copy_fields].
  destruct (getattr s proxy (f_name f)) as [v|e].
  - rewrite IH by done. by rewrite lookup_insert_ne.
  - by destruct e.
Qed.

(** [replacement_init] once the proxy class is let through and the original
    initialiser has returned. *)
Lemma replacement_init_run s cls proxy original_init a proxy_attrs fields self :
  metaclass_guard s proxy = Ok tt ->
  run_init s original_init a ∅ = (Ok tt, proxy_attrs) ->
  dataclasses_fields s cls = Ok fields ->
  run_init s (replacement_init_of cls proxy original_init) a self
  = copy_fields s {| i_class := proxy; i_attrs := proxy_attrs |} fields self.
Proof. intros Hg Hrun Hf. cbn [run_init]. by rewrite Hg, Hrun, Hf. Qed.

(** [replacement_init] writes no attribute of [self] that is not a field,
    however it ends. *)
Lemma replacement_init_frame s cls proxy original_init a fields self name :
  dataclasses_fields s cls = Ok fields ->
  name ∉ f_name <$> fields ->
  (run_init s (replacement_init_of cls proxy original_init) a self).2 !! name
  = self !! name.
Proof.
  intros Hf Hn. cbn [run_init].
  destruct (metaclass_guard s proxy); [|done].
  destruct (run_init s original_init a ∅) as [[[]|e] proxy_attrs]; [|done].
  rewrite Hf. by apply copy_fields_frame.
Qed.

(** What a registration that installs a proxy leaves, for a class whose MRO
    starts with the class itself. *)
Lemma registered_with_proxy o cls s s' r c bases original_init :
  pytree_dataclass o cls s = (Ok r, s') ->
  classes s !! cls = Some c ->
  c_mro c = cls :: bases ->
  d_init c = Some original_init ->
  opt_use_mutable_proxy_in_init o = true ->
  exists proxy fields,
    (classes s' !! cls ≫= d_MutableInitProxy) = Some (Some proxy)
    /\ class_init s' cls = replacement_init_of cls proxy original_init
    /\ class_init s' proxy = original_init
    /\ metaclass_guard s' proxy = Ok tt
    /\ dataclasses_fields s' cls = Ok fields
    /\ forall a, call_class s' cls a = type_call s' cls a.
Proof.
  intros Hreg Hc Hmro Hinit Huse.
  destruct (registered_store _ _ _ _ _ _ Hreg Hc)
    as (_ & c1 & _ & Hinfo & Hmeta & Hmro1 & [fields Hfields] & _ & _ &
        [[_ [?|?]]|(orig' & proxy & Hinit' & _ & Hne & Hfresh & Hs')]);
    [congruence..|].
  rewrite Hinit in Hinit'. injection Hinit' as <-.
  exists proxy, fields.
  assert (classes s' !! cls
          = Some (set_init
                    (Some (replacement_init_of cls proxy original_init))
                    (set_MutableInitProxy (Some (Some proxy)) c1))) as Hcls.
  { by rewrite Hs', lookup_insert_eq. }
  assert (classes s' !! proxy
          = Some (MutableInitProxy_class c1 proxy original_init)) as Hproxy.
  { rewrite Hs', lookup_insert_ne by done. by rewrite lookup_insert_eq. }
  split; [by rewrite Hcls|].
  split.
  { unfold class_init, class_lookup, mro. rewrite Hcls. cbn [c_mro set_init
      set_MutableInitProxy]. rewrite Hmro1, Hmro. cbn [first_along].
    by rewrite Hcls. }
  split.
  { unfold class_init, class_lookup, mro. rewrite Hproxy.
    cbn [c_mro MutableInitProxy_class first_along]. by rewrite Hproxy. }
  split.
  { unfold metaclass_guard, AbstractStructMetaclass_guard,
      is_pytree_dataclass_type. rewrite Hproxy. cbn.
    by destruct (c_metaclass c1). }
  split.
  { unfold dataclasses_fields, class_lookup, mro. rewrite Hcls. cbn [c_mro
      set_init set_MutableInitProxy]. rewrite Hmro1, Hmro. cbn [first_along].
    rewrite Hcls. cbn. by rewrite Hfields. }
  intros a. unfold call_class. rewrite Hcls. cbn.
  destruct (c_metaclass c1); [done|].
  eapply guard_accepts_marked; [exact Hcls|done].
Qed.

(** C6, as amended.  After a registration that wrapped a hand-written
    initialiser in the proxy, and on arguments for which that initialiser
    returns: construction fails with the error naming the first declared
    field that cannot be read from the proxy; when every field can be read,
    construction returns an instance on which each declared field has the
    value read from the proxy.  What is read is the value the initialiser
    assigned, or, for a field it did not assign, the class attribute of that
    name when there is one (such as the default of the field). *)
Theorem construction_copies_fields_read_from_proxy
  o cls s s' r c bases original_init a proxy_attrs :
  pytree_dataclass o cls s = (Ok r, s') ->
  classes s !! cls = Some c ->
  c_mro c = cls :: bases ->
  d_init c = Some original_init ->
  opt_use_mutable_proxy_in_init o = true ->
  run_init s' original_init a ∅ = (Ok tt, proxy_attrs) ->
  exists proxy fields,
    (classes s' !! cls ≫= d_MutableInitProxy) = Some (Some proxy)
    /\ dataclasses_fields s' cls = Ok fields
    /\ let on_proxy := {| i_class := proxy; i_attrs := proxy_attrs |} in
       (forall pre f post e,
          fields = pre ++ f :: post ->
          has_fields s' on_proxy pre ->
          getattr s' on_proxy (f_name f) = Raise e ->
          call_class s' cls a
          = Raise (AttributeError (FieldNotSetDuringInit (f_name f))))
       /\ (has_fields s' on_proxy fields ->
           exists inst,
             call_class s' cls a = Ok inst
             /\ i_class inst = cls
             /\ forall f v,
                  f ∈ fields -> getattr s' on_proxy (f_name f) = Ok v ->
                  i_attrs inst !! f_name f = Some v)
       /\ (forall name v,
             proxy_attrs !! name = Some v ->
             getattr s' on_proxy name = Ok v)
       /\ (forall name,
             proxy_attrs !! name = None ->
             getattr s' on_proxy name
             = match class_lookup s' proxy (fun c => d_attrs c !! name) with
               | Some v => Ok v
               | None => Raise (AttributeError (NoAttribute name))
               end).
Proof.
  intros Hreg Hc Hmro Hinit Huse Hrun.
  destruct (registered_with_proxy _ _ _ _ _ _ _ _ Hreg Hc Hmro Hinit Huse)
    as (proxy & fields & Hp & Hci & _ & Hguard & Hfields & Hcall).
  exists proxy, fields. do 2 (split; [done|]). cbn zeta.
  assert (forall self,
            run_init s' (class_init s' cls) a self
            = copy_fields s' {| i_class := proxy; i_attrs := proxy_attrs |}
                fields self) as Hinit_run.
  { intros self. rewrite Hci. by apply replacement_init_run. }
  split; [|split; [|split]].
  - intros pre f post e -> Hpre Hf. rewrite Hcall. unfold type_call.
    rewrite Hinit_run.
    pose proof (copy_fields_fail s' _ pre f post ∅ e Hpre Hf) as Hfail.
    destruct (copy_fields _ _ _ _) as [res attrs]. cbn in Hfail.
    by rewrite Hfail.
  - intros Hhas. eexists. rewrite Hcall. unfold type_call.
    rewrite Hinit_run, copy_fields_ok by done.
    split; [done|]. split; [done|]. intros f v Hf Hv. cbn [i_attrs].
    rewrite lookup_setattr_all.
    rewrite decide_True by (apply list_elem_of_fmap; eauto).
    by rewrite (getattr_attr _ _ _ _ Hv).
  - intros name v Hv. by apply getattr_assigned.
  - intros name Hv. by apply getattr_unassigned.
Qed.

(** C10.  After a registration that wrapped a hand-written initialiser in
    the proxy, the installed initialiser leaves every attribute of [self]
    that is not a declared field as it was, however it ends; and an instance
    that construction returns has the declared fields as its attributes and
    no other: what the hand-written initialiser set on the proxy besides the
    fields is not on it. *)
Theorem construction_copies_only_declared_fields
  o cls s s' r c bases original_init a :
  pytree_dataclass o cls s = (Ok r, s') ->
  classes s !! cls = Some c ->
  c_mro c = cls :: bases ->
  d_init c = Some original_init ->
  opt_use_mutable_proxy_in_init o = true ->
  exists fields,
    dataclasses_fields s' cls = Ok fields
    /\ (forall self name,
          name ∉ f_name <$> fields ->
          (run_init s' (class_init s' cls) a self).2 !! name = self !! name)
    /\ (forall inst name,
          call_class s' cls a = Ok inst ->
          name ∉ f_name <$> fields ->
          i_attrs inst !! name = None)
    /\ (forall inst,
          call_class s' cls a = Ok inst ->
          dom (i_attrs inst) = list_to_set (f_name <$> fields)).
Proof.
  intros Hreg Hc Hmro Hinit Huse.
  destruct (registered_with_proxy _ _ _ _ _ _ _ _ Hreg Hc Hmro Hinit Huse)
    as (proxy & fields & Hp & Hci & _ & Hguard & Hfields & Hcall).
  exists fields. split; [done|].
  assert (forall self name,
            name ∉ f_name <$> fields ->
            (run_init s' (class_init s' cls) a self).2 !! name
            = self !! name) as Hframe.
  { intros self name Hn. rewrite Hci. by eapply replacement_init_frame. }
  split; [done|]. split.
  - intros inst name Hinst Hn. rewrite Hcall in Hinst.
    unfold type_call in Hinst. specialize (Hframe ∅ name Hn).
    destruct (run_init s' (class_init s' cls) a ∅) as [[[]|e] attrs];
      [|done].
    injection Hinst as <-. cbn in *. by rewrite Hframe, lookup_empty.
  - intros inst Hinst. rewrite Hcall in Hinst. unfold type_call in Hinst.
    rewrite Hci in Hinst. cbn [run_init] in Hinst. rewrite Hguard in Hinst.
    destruct (run_init s' original_init a ∅) as [[[]|e] proxy_attrs];
      [|done].
    rewrite Hfields in Hinst.
    set (on_proxy := {| i_class := proxy; i_attrs := proxy_attrs |}) in *.
    destruct (copy_fields s' on_proxy fields ∅) as [[[]|e] attrs] eqn:Hcopy;
      [|done].
    apply copy_fields_returns in Hcopy as [Hhas ->].
    injection Hinst as <-. cbn [i_attrs]. apply set_eq. intros name.
    rewrite elem_of_dom, lookup_setattr_all, elem_of_list_to_set.
    case_decide; [by split; eauto|].
    rewrite lookup_empty. split; [by intros []|done].
Qed.

(** ** The registrar does not look at field metadata *)

Section Retag.
Variable g : gmap string value -> gmap string value.

Lemma retag_lookup s cls :
  classes (retag_store g s) !! cls = retag_class g <$> classes s !! cls.
Proof. unfold retag_store. cbn. by rewrite lookup_fmap. Qed.

Lemma retag_mro s cls : mro (retag_store g s) cls = mro s cls.
Proof. unfold mro. rewrite retag_lookup. by destruct (classes s !! cls). Qed.

Lemma retag_first_along {X Y} (h : X -> Y) (get : class_obj -> option Y)
  (get' : class_obj -> option X) s l :
  (forall c, get (retag_class g c) = h <$> get' c) ->
  first_along (retag_store g s) get l = h <$> first_along s get' l.
Proof.
  intros Hget. induction l as [|b l IH]; [done|]. cbn [first_along].
  rewrite retag_lookup. destruct (classes s !! b) as [c|]; cbn.
  - rewrite Hget. destruct (get' c); cbn; [done|apply IH].
  - apply IH.
Qed.

Lemma retag_class_lookup {X Y} (h : X -> Y) (get : class_obj -> option Y)
  (get' : class_obj -> option X) s cls :
  (forall c, get (retag_class g c) = h <$> get' c) ->
  class_lookup (retag_store g s) cls get = h <$> class_lookup s cls get'.
Proof.
  intros Hget. unfold class_lookup. rewrite retag_mro.
  by apply retag_first_along.
Qed.

Lemma retag_class_lookup_same {X} (get : class_obj -> option X) s cls :
  (forall c, get (retag_class g c) = get c) ->
  class_lookup (retag_store g s) cls get = class_lookup s cls get.
Proof.
  intros Hget. rewrite (retag_class_lookup id get get).
  - by destruct (class_lookup s cls get).
  - intros c. rewrite Hget. by destruct (get c).
Qed.

Lemma retag_class_init s cls :
  class_init (retag_store g s) cls = class_init s cls.
Proof. unfold class_init. by rewrite retag_class_lookup_same. Qed.

Lemma retag_dataclasses_fields s cls :
  dataclasses_fields (retag_store g s) cls
  = result_map (fmap (retag_field g)) (dataclasses_fields s cls).
Proof.
  unfold dataclasses_fields.
  rewrite (retag_class_lookup (fmap (retag_field g))
             d_dataclass_fields d_dataclass_fields) by done.
  by destruct (class_lookup s cls d_dataclass_fields).
Qed.

Lemma retag_parent_init_check o cls c s :
  parent_init_check o cls (retag_class g c) (retag_store g s)
  = ((parent_init_check o cls c s).1, retag_store g s).
Proof.
  unfold parent_init_check, check_parent_init, bind, gets, raise, ret.
  cbn [d_init retag_class c_name].
  destruct (opt_init o && bool_decide (d_init c = None)
            && negb (opt_overwrite_parent_init o)); [|done].
  rewrite retag_class_lookup_same by done.
  destruct (class_lookup s cls d_info) as [i|]; cbn.
  - destruct (generated_init i) as [[i0|]|]; cbn; [| |done];
      rewrite retag_class_init; by case_bool_decide.
  - rewrite retag_class_init. by case_bool_decide.
Qed.

Lemma retag_set_field f fields :
  set_field (retag_field g f) (retag_field g <$> fields)
  = retag_field g <$> set_field f fields.
Proof.
  induction fields as [|f0 fields IH]; [done|]. cbn.
  destruct (String.eqb (f_name f0) (f_name f)); [done|].
  cbn. by rewrite IH.
Qed.

Lemma retag_set_fields new old :
  set_fields (retag_field g <$> new) (retag_field g <$> old)
  = retag_field g <$> set_fields new old.
Proof.
  revert old. induction new as [|f new IH]; intros old; [done|].
  cbn. rewrite retag_set_field. apply IH.
Qed.

Lemma retag_own_fields c :
  own_fields (retag_class g c) = retag_field g <$> own_fields c.
Proof.
  unfold own_fields. cbn [d_annotations retag_class].
  induction (d_annotations c) as [|[name [md d|]] l IH]; [done| |];
    cbn; by rewrite IH.
Qed.

Lemma retag_base_fields s cls :
  base_fields (retag_store g s) cls = retag_field g <$> base_fields s cls.
Proof.
  unfold base_fields. rewrite retag_mro.
  change (@nil Field) with (retag_field g <$> @nil Field) at 1.
  generalize (@nil Field). induction (rev (tail (mro s cls))) as [|b l IH];
    intros acc; [done|].
  cbn [fold_left].
  rewrite (retag_class_lookup (fmap (retag_field g))
             d_dataclass_fields d_dataclass_fields) by done.
  destruct (class_lookup s b d_dataclass_fields) as [fs|]; cbn.
  - rewrite retag_set_fields. apply IH.
  - apply IH.
Qed.

Lemma retag_set_defaults fields attrs :
  fold_left set_default (retag_field g <$> fields) attrs
  = fold_left set_default fields attrs.
Proof.
  revert attrs. induction fields as [|f fields IH]; intros attrs; [done|].
  cbn. apply IH.
Qed.

Lemma retag_update_class cls (f f' : class_obj -> class_obj) s :
  (forall c, f (retag_class g c) = retag_class g (f' c)) ->
  update_class cls f (retag_store g s)
  = retag_store g (update_class cls f' s).
Proof.
  intros Hf. unfold update_class, retag_store, set_classes. cbn. f_equal.
  apply map_eq. intros k. rewrite lookup_alter, !lookup_fmap, lookup_alter.
  case_decide; [|done]. destruct (classes s !! cls); cbn; by rewrite ?Hf.
Qed.

Lemma retag_dataclasses_dataclass init cls s :
  dataclasses_dataclass init cls (retag_store g s)
  = retag_store g (dataclasses_dataclass init cls s).
Proof.
  unfold dataclasses_dataclass. rewrite retag_lookup.
  destruct (classes s !! cls) as [c|]; [|done]. cbn [fmap option_fmap option_map].
  apply retag_update_class. intros c0.
  rewrite retag_own_fields, retag_base_fields, retag_set_fields.
  change (own_fields (set_dataclass_fields ?x ?y)) with (own_fields y).
  rewrite retag_own_fields, retag_set_defaults.
  unfold set_new_init. cbn [d_init retag_class set_attrs set_dataclass_fields].
  by destruct init, (d_init c0).
Qed.

Lemma retag_transformed o cls c s :
  transformed o cls (retag_class g c) (retag_store g s)
  = retag_store g (transformed o cls c s).
Proof.
  unfold transformed. cbn [d_init retag_class].
  rewrite (retag_update_class cls _
             (set_info
                (Some {| has_implicitly_inherited_fields :=
                           Some (opt_has_implicitly_inherited_fields o);
                         use_mutable_proxy_in_init :=
                           Some (opt_use_mutable_proxy_in_init o);
                         is_init_proxy := Some false;
                         generated_init := None |}))) by done.
  rewrite retag_dataclasses_dataclass, retag_class_init.
  by apply retag_update_class.
Qed.

Lemma retag_check_fields o cls c s :
  check_fields o cls (retag_class g c) (retag_store g s)
  = ((check_fields o cls c s).1, retag_store g s).
Proof.
  unfold check_fields, bind, gets. rewrite retag_lookup.
  rewrite retag_dataclasses_fields.
  destruct (dataclasses_fields s cls) as [fields|e]; [|done].
  cbn [result_map result_bind c_name retag_class].
  rewrite <- list_fmap_compose.
  change (f_name ∘ retag_field g) with f_name.
  assert (match retag_class g <$> classes s !! cls with
          | Some c' => (d_annotations c').*1
          | None => []
          end
          = match classes s !! cls with
            | Some c' => (d_annotations c').*1
            | None => []
            end) as ->.
  { destruct (classes s !! cls) as [c'|]; [|done]. cbn.
    by rewrite <- list_fmap_compose. }
  destruct (opt_has_implicitly_inherited_fields o); by case_bool_decide.
Qed.

Lemma retag_new_class_id s : new_class_id (retag_store g s) = new_class_id s.
Proof. unfold new_class_id, retag_store. cbn. by rewrite dom_fmap_L. Qed.

Lemma install_proxy_eq cls original_init s :
  install_proxy cls original_init s
  = match classes s !! cls with
    | None => (Raise (TypeError (Other 0)), s)
    | Some c =>
        if bool_decide (is_Some (d_MutableInitProxy c))
        then (Raise (ValueError MutableInitProxyAlreadyDefined), s)
        else (Ok tt, with_proxy cls c original_init s)
    end.
Proof.
  unfold install_proxy, bind at 1.
  destruct (classes s !! cls) as [c|]; [|done]. by case_bool_decide.
Qed.

Lemma retag_with_proxy cls c original_init s :
  with_proxy cls (retag_class g c) original_init (retag_store g s)
  = retag_store g (with_proxy cls c original_init s).
Proof.
  unfold with_proxy. rewrite retag_new_class_id. cbv zeta.
  rewrite <- (retag_update_class cls
                (set_init (Some (replacement_init_of cls (new_class_id s)
                                   original_init)))
                (set_init (Some (replacement_init_of cls (new_class_id s)
                                   original_init)))) by done.
  rewrite <- (retag_update_class cls
                (set_MutableInitProxy (Some (Some (new_class_id s))))
                (set_MutableInitProxy (Some (Some (new_class_id s)))))
    by done.
  do 2 f_equal. unfold retag_store, set_classes. cbn. f_equal.
  by rewrite fmap_insert.
Qed.

Lemma retag_proxy_phase o cls c s :
  proxy_phase o cls (retag_class g c) (retag_store g s)
  = ((proxy_phase o cls c s).1, retag_store g (proxy_phase o cls c s).2).
Proof.
  unfold proxy_phase. cbn [d_init retag_class].
  destruct (d_init c) as [original_init|]; [|done].
  destruct (opt_use_mutable_proxy_in_init o); [|done].
  rewrite !install_proxy_eq, retag_lookup.
  destruct (classes s !! cls) as [c1|]; [|done].
  cbn [fmap option_fmap option_map d_MutableInitProxy retag_class].
  case_bool_decide; [done|]. by rewrite retag_with_proxy.
Qed.

(** Registration commutes with any rewriting of field metadata: it returns
    or raises the same, and leaves the rewritten store. *)
Lemma retag_pytree_dataclass o cls s :
  pytree_dataclass o cls (retag_store g s)
  = ((pytree_dataclass o cls s).1,
     retag_store g (pytree_dataclass o cls s).2).
Proof.
  rewrite !pytree_dataclass_phases, retag_lookup.
  destruct (classes s !! cls) as [c|]; [|done].
  cbn [fmap option_fmap option_map d_info retag_class].
  case_bool_decide; [done|].
  change (d_info (retag_class g c)) with (d_info c).
  rewrite retag_parent_init_check.
  rewrite (pair_with_store _ _ (parent_init_check_store o cls c s)).
  destruct (parent_init_check o cls c s).1 as [[]|e]; [|done].
  cbv zeta. rewrite retag_transformed, retag_check_fields.
  rewrite (pair_with_store _ _
             (check_fields_store o cls c (transformed o cls c s))).
  destruct (check_fields o cls c (transformed o cls c s)).1 as [[]|e];
    [|done].
  unfold hasattr_tree_flatten_with_keys, hasattr_tree_unflatten.
  rewrite !retag_class_lookup_same by done.
  fold (hasattr_tree_flatten_with_keys (transformed o cls c s) cls).
  fold (hasattr_tree_unflatten (transformed o cls c s) cls).
  destruct (hasattr_tree_flatten_with_keys (transformed o cls c s) cls
            && hasattr_tree_unflatten (transformed o cls c s) cls);
    [|done].
  change (jax_registered cls (retag_store g ?x))
    with (retag_store g (jax_registered cls x)).
  rewrite retag_proxy_phase.
  by destruct (proxy_phase o cls c
                 (jax_registered cls (transformed o cls c s)))
    as [[[]|e] s3].
Qed.

End Retag.

(** ** The field classifier *)

Lemma is_pytree_node_field_default field :
  f_metadata field !! "pytree_node" = None ->
  is_pytree_node_field field = VBool true.
Proof. unfold is_pytree_node_field. by intros ->. Qed.

Lemma is_pytree_node_field_falsy field :
  truthy (is_pytree_node_field field) = false ->
  exists v, f_metadata field !! "pytree_node" = Some v
            /\ truthy v = false /\ is_pytree_node_field field = v.
Proof.
  unfold is_pytree_node_field.
  destruct (f_metadata field !! "pytree_node") as [v|]; [eauto|done].
Qed.

(** C7, as amended.  The classifier depends on the metadata of the field
    alone; it answers true when the metadata has no ["pytree_node"] entry,
    and a falsy answer is the value of that entry.  Both flatten operations
    route the fields by it: the child names are the fields it answers truthy
    for and the static names those it answers falsy for.  The registrar does
    not consult it: rewriting the metadata of every field changes neither
    what a registration returns or raises nor, up to that rewriting, the
    store it leaves. *)
Theorem classifier_routes_flatten_and_not_registration
  field s self fields g o cls s0 :
  dataclasses_fields s (i_class self) = Ok fields ->
  has_fields s self fields ->
  (f_metadata field !! "pytree_node" = None ->
   is_pytree_node_field field = VBool true)
  /\ (truthy (is_pytree_node_field field) = false ->
      exists v, f_metadata field !! "pytree_node" = Some v
                /\ truthy v = false /\ is_pytree_node_field field = v)
  /\ (forall field',
        f_metadata field' = f_metadata field ->
        is_pytree_node_field field' = is_pytree_node_field field)
  /\ (exists children metadata,
        Struct.tree_flatten_with_keys s self = Ok (children, metadata)
        /\ Struct.tree_flatten s self = Ok (children.*2, metadata)
        /\ child_field_names metadata
           = f_name <$> filter (fun f => truthy (is_pytree_node_field f))
                          fields
        /\ forall name,
             name ∈ dom (static_fields metadata)
             <-> name ∈ f_name
                        <$> filter
                              (fun f => ¬ truthy (is_pytree_node_field f))
                              fields)
  /\ pytree_dataclass o cls (retag_store g s0)
     = ((pytree_dataclass o cls s0).1,
        retag_store g (pytree_dataclass o cls s0).2).
Proof.
  intros Hfields Hhas.
  split; [apply is_pytree_node_field_default|].
  split; [apply is_pytree_node_field_falsy|].
  split; [by unfold is_pytree_node_field; intros field' ->|].
  split; [|apply retag_pytree_dataclass].
  pose proof (tree_flatten_with_keys_ok _ _ _ Hfields Hhas) as Hflat.
  eexists _, _. split; [exact Hflat|].
  split; [by rewrite tree_flatten_strips_keys, Hflat|].
  split; [done|]. intros name. cbn [static_fields].
  rewrite elem_of_dom, lookup_setattr_all.
  case_decide; [by split; eauto|].
  rewrite lookup_empty. split; [by intros []|done].
Qed.

(** ** The check on the inherited initialiser *)

(** The check compares the inherited [__init__] with the initialiser
    remembered by the nearest class along the MRO that carries registration
    info, and with [object.__init__] when that class remembers none or when
    there is no such class. *)
Lemma check_parent_init_compares_with_nearest cls c s :
  (check_parent_init cls c s).1
  = match expected_parent_init s cls with
    | Raise e => Raise e
    | Ok expected =>
        if bool_decide (class_init s cls = expected) then Ok tt
        else Raise (PyTreeDataclassSafetyError
                      (OverwritesInheritedInit (c_name c)))
    end.
Proof.
  unfold check_parent_init, expected_parent_init, bind, gets, raise, ret.
  destruct (class_lookup s cls d_info) as [i|]; cbn.
  - destruct (generated_init i) as [[generated|]|]; cbn; [| |done];
      by repeat case_bool_decide.
  - by repeat case_bool_decide.
Qed.

(** C4, at the failing input.  [A] was registered with a generated
    initialiser, [B(A)] was registered with [init=False] and inherits it,
    and [C(B)] declares no initialiser: the initialiser [C] inherits is the
    one generated by the registration of [A], and registering [C] with the
    default options raises the unsafe-overwrite error all the same, because
    the nearest registered class, [B], remembers no generated initialiser. *)
Theorem inherited_generated_init_rejected_after_init_false :
  (classes chain_store !! C ≫= d_init) = None
  /\ class_init chain_store C = generated_init_of A
  /\ ((classes chain_store !! A ≫= d_info) ≫= generated_init)
     = Some (Some (generated_init_of A))
  /\ ((classes chain_store !! B ≫= d_info) ≫= generated_init) = Some None
  /\ expected_parent_init chain_store C = Ok object_init
  /\ (pytree_dataclass default_options C chain_store).1
     = Raise (PyTreeDataclassSafetyError (OverwritesInheritedInit "C")).
Proof. vm_compute. repeat split; reflexivity. Qed.

(** C3, at the failing input.  [A] is registered and [B(A)] annotates only
    the new field [y].  Before [pytree_dataclass] is applied to [B],
    constructing a [B] fails with the abstract-type error.  Applying it
    raises the field-order error: the registration of [B] does not
    complete, [B] is not added to the JAX registry and gets no proxy.  The
    info attribute was stored on [B] before that check, though, so from then
    on [B] counts as a pytree dataclass type, and constructing a [B] passes
    the guard and returns an instance of a class that is no PyTree node
    class. *)
Theorem guard_passes_class_whose_registration_failed :
  is_pytree_dataclass_type subclass_store B = false
  /\ AbstractStructMetaclass_call subclass_store B one_two
     = Raise (TypeError (CantInstantiateAbstract B))
  /\ pytree_dataclass default_options B subclass_store
     = (Raise (PyTreeDataclassSafetyError
                 (BadlyOrderedAttributes "B" ["y"] ["x"; "y"])),
        subclass_failed)
  /\ (B ∉ jax_registry subclass_failed)
  /\ (classes subclass_failed !! B ≫= d_MutableInitProxy) = None
  /\ is_pytree_dataclass_type subclass_failed B = true
  /\ AbstractStructMetaclass_call subclass_failed B one_two
     = Ok {| i_class := B;
             i_attrs := {[ "x" := VInt 1; "y" := VInt 2 ]} |}.
Proof.
  repeat split; try (vm_compute; reflexivity).
  refine (bool_decide_unpack _ _). vm_compute. exact I.
Qed.

(** ** Counterexamples to the claims as first stated *)

(** C6, as first stated, fails: the initialiser of [Foo] assigns nothing,
    so the declared field [x] is never assigned during it, and yet
    construction returns an instance, whose [x] is the default 3 found on
    the class. *)
Lemma unassigned_field_with_default_is_constructed :
  pytree_dataclass default_options Foo foo_declared = (Ok Foo, foo_store)
  /\ run_init foo_store (user_init 0) no_args ∅ = (Ok tt, ∅)
  /\ dataclasses_fields foo_store Foo
     = Ok [ {| f_name := "x"; f_metadata := ∅;
               f_default := Some (VInt 3) |} ]
  /\ call_class foo_store Foo no_args
     = Ok {| i_class := Foo; i_attrs := {[ "x" := VInt 3 ]} |}.
Proof. vm_compute. repeat split; reflexivity. Qed.

(** C7, as first stated, fails in its last part: no change of field
    metadata changes what a registration returns or raises. *)
Lemma registrar_does_not_consult_classification :
  ~ registrar_consults_classification.
Proof.
  intros (g & o & cls & s & Hdiff). apply Hdiff.
  by rewrite retag_pytree_dataclass.
Qed.

(** C8, as first stated, fails.  Registering the registered class [A] again
    fails the already-registered check and [A] stays usable; registering
    [B], which does not list the field it inherits, fails the field-order
    check, and afterwards [B] counts as a pytree dataclass type and passes
    the instantiation guard. *)
Lemma failed_registration_leaves_class_usable :
  (pytree_dataclass default_options A subclass_store
   = (Raise (ValueError CannotApplyTwice), subclass_store)
   /\ AbstractStructMetaclass_call subclass_store A
        {| args := [VInt 1]; kwargs := ∅ |}
      = Ok {| i_class := A; i_attrs := {[ "x" := VInt 1 ]} |})
  /\ (pytree_dataclass default_options B subclass_store
      = (Raise (PyTreeDataclassSafetyError
                  (BadlyOrderedAttributes "B" ["y"] ["x"; "y"])),
         subclass_failed)
      /\ is_pytree_dataclass_type subclass_failed B = true
      /\ AbstractStructMetaclass_call subclass_failed B one_two
         = Ok {| i_class := B;
                 i_attrs := {[ "x" := VInt 1; "y" := VInt 2 ]} |}).
Proof. vm_compute. repeat split; reflexivity. Qed.

(** ** The statements at concrete inputs *)

(** The scenarios of the specification. *)
Example point_flattens :
  Struct.tree_flatten_with_keys point_store a_point
  = Ok ([(GetAttrKey "x", VInt 1); (GetAttrKey "y", VInt 2)],
        {| child_field_names := ["x"; "y"]; static_fields := ∅ |}).
Proof. vm_compute. reflexivity. Qed.

Example point_is_constructed :
  call_class point_store Point one_two = Ok a_point.
Proof. vm_compute. reflexivity. Qed.

Example tagged_flattens :
  Struct.tree_flatten point_store a_tagged
  = Ok ([VInt 7],
        {| child_field_names := ["value"];
           static_fields := {[ "tag" := VStr "t" ]} |}).
Proof. vm_compute. reflexivity. Qed.

Example subclass_of_registered_class_registers :
  (pytree_dataclass default_options B chain_A).1 = Ok B.
Proof. vm_compute. reflexivity. Qed.

Example unregistered_subclass_is_abstract :
  call_class subclass_store B one_two
  = Raise (TypeError (CantInstantiateAbstract B)).
Proof. vm_compute. reflexivity. Qed.


Lemma flatten_metadata_follows_field_order_witness :
  exists children metadata,
    Struct.tree_flatten_with_keys point_store a_tagged
    = Ok (children, metadata)
    /\ Struct.tree_flatten point_store a_tagged = Ok (children.*2, metadata)
    /\ child_field_names metadata
       = f_name <$> filter (fun f => is_child f) tagged_fields
    /\ length children = length (child_field_names metadata)
    /\ Forall2 (fun name kv => getattr point_store a_tagged name = Ok kv.2)
         (child_field_names metadata) children
    /\ (forall name,
          name ∈ dom (static_fields metadata)
          <-> exists f, f ∈ tagged_fields /\ is_child f = false
                        /\ f_name f = name)
    /\ (forall f, f ∈ tagged_fields -> is_child f = false ->
          exists v, getattr point_store a_tagged (f_name f) = Ok v
                    /\ static_fields metadata !! f_name f = Some v).
Proof.
  apply (flatten_metadata_follows_field_order point_store a_tagged
           tagged_fields).
  - vm_compute. reflexivity.
  - repeat constructor; eexists; vm_compute; reflexivity.
Defined.

Lemma guard_decides_by_the_info_attribute_witness :
  AbstractStructMetaclass_call subclass_store B no_args
  = Raise (TypeError (CantInstantiateAbstract B))
  /\ AbstractStructMetaclass_call subclass_store A no_args
     = type_call subclass_store A no_args
  /\ (forall proxy cp i,
        classes subclass_store !! proxy = Some cp -> d_info cp = Some i ->
        is_init_proxy i = Some true ->
        AbstractStructMetaclass_call subclass_store proxy no_args
        = type_call subclass_store proxy no_args)
  /\ (forall c0 original_init,
        classes subclass_declared !! A = Some c0 ->
        d_init c0 = Some original_init ->
        opt_use_mutable_proxy_in_init default_options = true ->
        exists proxy cp i,
          (classes subclass_store !! A ≫= d_MutableInitProxy)
          = Some (Some proxy)
          /\ classes subclass_store !! proxy = Some cp
          /\ d_info cp = Some i
          /\ is_init_proxy i = Some true).
Proof.
  apply (guard_decides_by_the_info_attribute default_options A
           subclass_declared subclass_store A B
           (class_statement "B" AbstractStructMetaclass [B; A; 0] None
              [("y", child_field)] ∅)
           no_args).
  - vm_compute. reflexivity.
  - vm_compute. reflexivity.
  - reflexivity.
Defined.

Lemma registration_is_once_per_class_witness :
  pytree_dataclass init_false A subclass_store
  = (Raise (ValueError CannotApplyTwice), subclass_store)
  /\ (pytree_dataclass init_false B subclass_store).1
     <> Raise (ValueError CannotApplyTwice).
Proof.
  apply (registration_is_once_per_class default_options A
           subclass_declared A subclass_store init_false B
           (class_statement "B" AbstractStructMetaclass [B; A; 0] None
              [("y", child_field)] ∅)).
  - vm_compute. reflexivity.
  - vm_compute. reflexivity.
  - reflexivity.
Defined.

Lemma failed_safety_check_aborts_registration_witness :
  jax_registry subclass_failed = jax_registry subclass_store
  /\ dom (classes subclass_failed) = dom (classes subclass_store)
  /\ functions subclass_failed = functions subclass_store
  /\ (PyTreeDataclassSafetyError
        (BadlyOrderedAttributes "B" ["y"] ["x"; "y"])
      = ValueError CannotApplyTwice -> subclass_failed = subclass_store)
  /\ (forall name,
        PyTreeDataclassSafetyError
          (BadlyOrderedAttributes "B" ["y"] ["x"; "y"])
        = PyTreeDataclassSafetyError (OverwritesInheritedInit name) ->
        subclass_failed = subclass_store
        /\ forall a, AbstractStructMetaclass_call subclass_failed B a
                     = Raise (TypeError (CantInstantiateAbstract B))).
Proof.
  apply (failed_safety_check_aborts_registration default_options B
           subclass_store).
  - vm_compute. reflexivity.
  - exact I.
Defined.

Lemma construction_copies_fields_read_from_proxy_witness :
  exists proxy fields,
    (classes bar_store !! Bar ≫= d_MutableInitProxy) = Some (Some proxy)
    /\ dataclasses_fields bar_store Bar = Ok fields
    /\ let on_proxy :=
         {| i_class := proxy;
            i_attrs := {[ "a" := VInt 1; "b" := VInt 2;
                          "scratch" := VInt 0 ]} |} in
       (forall pre f post e,
          fields = pre ++ f :: post ->
          has_fields bar_store on_proxy pre ->
          getattr bar_store on_proxy (f_name f) = Raise e ->
          call_class bar_store Bar no_args
          = Raise (AttributeError (FieldNotSetDuringInit (f_name f))))
       /\ (has_fields bar_store on_proxy fields ->
           exists inst,
             call_class bar_store Bar no_args = Ok inst
             /\ i_class inst = Bar
             /\ forall f v,
                  f ∈ fields ->
                  getattr bar_store on_proxy (f_name f) = Ok v ->
                  i_attrs inst !! f_name f = Some v)
       /\ (forall name v,
             ({[ "a" := VInt 1; "b" := VInt 2; "scratch" := VInt 0 ]}
                : gmap string value) !! name = Some v ->
             getattr bar_store on_proxy name = Ok v)
       /\ (forall name,
             ({[ "a" := VInt 1; "b" := VInt 2; "scratch" := VInt 0 ]}
                : gmap string value) !! name = None ->
             getattr bar_store on_proxy name
             = match class_lookup bar_store proxy
                       (fun c => d_attrs c !! name) with
               | Some v => Ok v
               | None => Raise (AttributeError (NoAttribute name))
               end).
Proof.
  apply (construction_copies_fields_read_from_proxy default_options Bar
           bar_declared bar_store Bar
           (class_statement "Bar" AbstractStructMetaclass [Bar; 0]
              (Some (user_init 1))
              [("a", child_field); ("b", static_field)] ∅)
           [0] (user_init 1) no_args).
  - vm_compute. reflexivity.
  - vm_compute. reflexivity.
  - reflexivity.
  - reflexivity.
  - reflexivity.
  - vm_compute. reflexivity.
Defined.

Lemma construction_copies_only_declared_fields_witness :
  exists fields,
    dataclasses_fields bar_store Bar = Ok fields
    /\ (forall self name,
          name ∉ f_name <$> fields ->
          (run_init bar_store (class_init bar_store Bar) no_args self).2
          !! name = self !! name)
    /\ (forall inst name,
          call_class bar_store Bar no_args = Ok inst ->
          name ∉ f_name <$> fields ->
          i_attrs inst !! name = None)
    /\ (forall inst,
          call_class bar_store Bar no_args = Ok inst ->
          dom (i_attrs inst) = list_to_set (f_name <$> fields)).
Proof.
  apply (construction_copies_only_declared_fields default_options Bar
           bar_declared bar_store Bar
           (class_statement "Bar" AbstractStructMetaclass [Bar; 0]
              (Some (user_init 1))
              [("a", child_field); ("b", static_field)] ∅)
           [0] (user_init 1) no_args).
  - vm_compute. reflexivity.
  - vm_compute. reflexivity.
  - reflexivity.
  - reflexivity.
  - reflexivity.
Defined.

Lemma classifier_routes_flatten_and_not_registration_witness :
  (f_metadata tag_field !! "pytree_node" = None ->
   is_pytree_node_field tag_field = VBool true)
  /\ (truthy (is_pytree_node_field tag_field) = false ->
      exists v, f_metadata tag_field !! "pytree_node" = Some v
                /\ truthy v = false /\ is_pytree_node_field tag_field = v)
  /\ (forall field',
        f_metadata field' = f_metadata tag_field ->
        is_pytree_node_field field' = is_pytree_node_field tag_field)
  /\ (exists children metadata,
        Struct.tree_flatten_with_keys point_store a_tagged
        = Ok (children, metadata)
        /\ Struct.tree_flatten point_store a_tagged
           = Ok (children.*2, metadata)
        /\ child_field_names metadata
           = f_name <$> filter (fun f => truthy (is_pytree_node_field f))
                          tagged_fields
        /\ forall name,
             name ∈ dom (static_fields metadata)
             <-> name ∈ f_name
                        <$> filter
                              (fun f => ¬ truthy (is_pytree_node_field f))
                              tagged_fields)
  /\ pytree_dataclass default_options B
       (retag_store (delete "pytree_node") subclass_store)
     = ((pytree_dataclass default_options B subclass_store).1,
        retag_store (delete "pytree_node")
          (pytree_dataclass default_options B subclass_store).2).
Proof.
  apply (classifier_routes_flatten_and_not_registration tag_field
           point_store a_tagged tagged_fields (delete "pytree_node")
           default_options B subclass_store).
  - vm_compute. reflexivity.
  - repeat constructor; eexists; vm_compute; reflexivity.
Defined.

(** * Further properties of the module *)

(** ** [attributes_dict] and the codec *)

Lemma attributes_dict_loop_ok s self fields acc :
  has_fields s self fields ->
  Struct.attributes_dict_loop s self fields acc
  = Ok (setattr_all acc (field_items s self fields)).
Proof.
  revert acc. induction fields as [|f fields IH]; intros acc H; [done|].
  apply has_fields_cons in H as [Hf H].
  cbn [Struct.attributes_dict_loop]. rewrite Hf. cbn [result_bind].
  by rewrite IH.
Qed.

Lemma attributes_dict_ok s self fields :
  dataclasses_fields s (i_class self) = Ok fields ->
  has_fields s self fields ->
  Struct.attributes_dict s self
  = Ok (setattr_all ∅ (field_items s self fields)).
Proof.
  intros Hfields Hhas. unfold Struct.attributes_dict. rewrite Hfields.
  cbn [result_bind]. by apply attributes_dict_loop_ok.
Qed.

(** X1. [attributes_dict] of an instance that has all the fields of its
    class is a dictionary whose keys are exactly the declared field names,
    static and child alike, each mapped to the value of the attribute. *)
Theorem attributes_dict_holds_every_field s self fields :
  dataclasses_fields s (i_class self) = Ok fields ->
  has_fields s self fields ->
  exists d,
    Struct.attributes_dict s self = Ok d
    /\ dom d = list_to_set (f_name <$> fields)
    /\ forall f v,
         f ∈ fields -> getattr s self (f_name f) = Ok v ->
         d !! f_name f = Some v.
Proof.
  intros Hfields Hhas. eexists. split; [by apply attributes_dict_ok|].
  split.
  - apply set_eq. intros name.
    rewrite elem_of_dom, lookup_setattr_all, elem_of_list_to_set.
    case_decide; [by split; eauto|].
    rewrite lookup_empty. split; [by intros []|done].
  - intros f v Hf Hv. rewrite lookup_setattr_all.
    rewrite decide_True by (apply list_elem_of_fmap; eauto).
    by rewrite (getattr_attr _ _ _ _ Hv).
Qed.

(** X2. Unflattening what either flatten operation returns hands
    [from_attributes] the very dictionary that [attributes_dict] returns:
    for every target class, [tree_unflatten] on the flattened instance is
    [from_attributes] on [attributes_dict] of the instance. *)
Theorem unflatten_of_flatten_is_from_attributes_dict s self fields cls :
  dataclasses_fields s (i_class self) = Ok fields ->
  has_fields s self fields ->
  exists children metadata d,
    Struct.tree_flatten_with_keys s self = Ok (children, metadata)
    /\ Struct.tree_flatten s self = Ok (children.*2, metadata)
    /\ Struct.attributes_dict s self = Ok d
    /\ Struct.tree_unflatten s cls metadata children.*2
       = Struct.from_attributes s cls d.
Proof.
  intros Hfields Hhas.
  pose proof (tree_flatten_with_keys_ok _ _ _ Hfields Hhas) as Hflat.
  eexists _, _, _. split; [exact Hflat|].
  split; [by rewrite tree_flatten_strips_keys, Hflat|].
  split; [by apply attributes_dict_ok|].
  unfold Struct.tree_unflatten. cbn [child_field_names static_fields].
  rewrite bool_decide_eq_true_2 by (by rewrite !length_fmap).
  f_equal. rewrite <- list_fmap_compose.
  change (snd ∘ _) with (fun f => attr s self (f_name f)).
  rewrite zip_field_items.
  change (Struct.assign_children ?m ?l) with (setattr_all m l).
  apply map_eq. intros name. rewrite !lookup_setattr_all, lookup_empty.
  pose proof (elem_of_names_split fields name) as Hsplit.
  repeat case_decide; first [done | exfalso; tauto].
Qed.

Lemma tree_flatten_with_keys_loop_fail s self pre f post e names children
  statics :
  has_fields s self pre ->
  getattr s self (f_name f) = Raise e ->
  Struct.tree_flatten_with_keys_loop s self (pre ++ f :: post) names children
    statics = Raise e.
Proof.
  revert names children statics.
  induction pre as [|g pre IH]; intros names children statics H Hf.
  - cbn. by rewrite Hf.
  - apply has_fields_cons in H as [Hg H].
    cbn [app Struct.tree_flatten_with_keys_loop]. rewrite Hg.
    cbn [result_bind].
    destruct (negb (truthy (is_pytree_node_field g))); by apply IH.
Qed.

Lemma attributes_dict_loop_fail s self pre f post e acc :
  has_fields s self pre ->
  getattr s self (f_name f) = Raise e ->
  Struct.attributes_dict_loop s self (pre ++ f :: post) acc = Raise e.
Proof.
  revert acc. induction pre as [|g pre IH]; intros acc H Hf.
  - cbn. by rewrite Hf.
  - apply has_fields_cons in H as [Hg H].
    cbn [app Struct.attributes_dict_loop]. rewrite Hg. cbn [result_bind].
    by apply IH.
Qed.

(** X3. When some declared field cannot be read from the instance, the two
    flatten operations and [attributes_dict] all raise, unchanged, the
    [AttributeError] of the first such field in declaration order. *)
Theorem reading_stops_at_first_missing_field s self pre f post e :
  dataclasses_fields s (i_class self) = Ok (pre ++ f :: post) ->
  has_fields s self pre ->
  getattr s self (f_name f) = Raise e ->
  e = AttributeError (NoAttribute (f_name f))
  /\ Struct.tree_flatten_with_keys s self = Raise e
  /\ Struct.tree_flatten s self = Raise e
  /\ Struct.attributes_dict s self = Raise e.
Proof.
  intros Hfields Hpre Hf. split; [by eapply getattr_raises|].
  assert (Struct.tree_flatten_with_keys s self = Raise e) as Hflat.
  { unfold Struct.tree_flatten_with_keys. rewrite Hfields. cbn [result_bind].
    by apply tree_flatten_with_keys_loop_fail. }
  split; [done|]. split.
  - by rewrite tree_flatten_strips_keys, Hflat.
  - unfold Struct.attributes_dict. rewrite Hfields. cbn [result_bind].
    by apply attributes_dict_loop_fail.
Qed.

(** X4. The keys that [tree_flatten_with_keys] returns are [key_for_field]
    of the recorded child field names, in the same order; when no class of
    the MRO overrides [key_for_field] they are the [GetAttrKey]s of those
    names. *)
Theorem flatten_keys_are_keys_of_child_names s self children metadata :
  Struct.tree_flatten_with_keys s self = Ok (children, metadata) ->
  children.*1
  = Struct.key_for_field s self <$> child_field_names metadata
  /\ (class_lookup s (i_class self) d_key_for_field = None ->
      children.*1 = GetAttrKey <$> child_field_names metadata).
Proof.
  intros Hflat.
  assert (forall fs names ch st ch' md,
            Struct.tree_flatten_with_keys_loop s self fs names ch st
            = Ok (ch', md) ->
            ch.*1 = Struct.key_for_field s self <$> names ->
            ch'.*1 = Struct.key_for_field s self <$> child_field_names md)
    as Hloop.
  { induction fs as [|f fs IH]; intros names ch st ch' md Hrun Hinv.
    - cbn in Hrun. by injection Hrun as <- <-.
    - cbn [Struct.tree_flatten_with_keys_loop] in Hrun.
      destruct (getattr s self (f_name f)) as [v|e0]; [|done].
      cbn [result_bind] in Hrun.
      destruct (negb (truthy (is_pytree_node_field f))).
      + by eapply IH.
      + eapply IH; [exact Hrun|]. rewrite !fmap_app. by rewrite Hinv. }
  unfold Struct.tree_flatten_with_keys in Hflat.
  destruct (dataclasses_fields s (i_class self)) as [fields|e]; [|done].
  cbn [result_bind] in Hflat.
  pose proof (Hloop _ _ _ _ _ _ Hflat eq_refl) as Hkeys.
  split; [done|]. intros Hnone. rewrite Hkeys.
  apply list_fmap_ext. intros i name _. unfold Struct.key_for_field.
  by rewrite Hnone.
Qed.

Lemma assign_children_frame (m : gmap string value) names children name :
  name ∉ names ->
  Struct.assign_children m (zip names children) !! name = m !! name.
Proof.
  revert m children. induction names as [|n names IH];
    intros m children Hn; [done|].
  destruct children as [|v children]; [done|].
  rewrite not_elem_of_cons in Hn. destruct Hn as [Hne Hn]. cbn.
  change (fold_left _ (zip names children) ?x)
    with (Struct.assign_children x (zip names children)).
  rewrite IH by done. by rewrite lookup_insert_ne.
Qed.

Lemma assign_children_lookup (m : gmap string value) names children i n v :
  NoDup names ->
  names !! i = Some n -> children !! i = Some v ->
  Struct.assign_children m (zip names children) !! n = Some v.
Proof.
  revert m children i. induction names as [|n0 names IH];
    intros m children i Hnd Hn Hv; [done|].
  destruct children as [|v0 children]; [done|].
  apply NoDup_cons in Hnd as [Hnotin Hnd]. cbn.
  change (fold_left _ (zip names children) ?x)
    with (Struct.assign_children x (zip names children)).
  destruct i as [|i]; cbn in Hn, Hv.
  - injection Hn as <-. injection Hv as <-.
    rewrite assign_children_frame by done. by rewrite lookup_insert_eq.
  - by eapply IH.
Qed.

(** X5. [tree_unflatten] refuses children whose number differs from the
    number of recorded child names with an assertion error.  Given as many
    children as distinct names, it builds the instance from a dictionary in
    which every recorded child name maps to the child at the same position
    and every other name keeps its entry of [static_fields]. *)
Theorem unflatten_zips_children_onto_names s cls metadata children :
  length children = length (child_field_names metadata) ->
  NoDup (child_field_names metadata) ->
  (exists attributes,
     Struct.tree_unflatten s cls metadata children
     = Struct.from_attributes s cls attributes
     /\ (forall i name child,
           child_field_names metadata !! i = Some name ->
           children !! i = Some child ->
           attributes !! name = Some child)
     /\ (forall name,
           name ∉ child_field_names metadata ->
           attributes !! name = static_fields metadata !! name))
  /\ (forall others,
        length others <> length (child_field_names metadata) ->
        Struct.tree_unflatten s cls metadata others = Raise AssertionError).
Proof.
  intros Hlen Hnd. split.
  - eexists. unfold Struct.tree_unflatten.
    rewrite bool_decide_eq_true_2 by done. split; [done|]. split.
    + intros i name child Hn Hc. by eapply assign_children_lookup.
    + intros name Hn. by apply assign_children_frame.
  - intros others Hothers. unfold Struct.tree_unflatten.
    by rewrite bool_decide_eq_false_2.
Qed.

Lemma tree_flatten_with_keys_loop_returns s self fields names children
  statics r :
  Struct.tree_flatten_with_keys_loop s self fields names children statics
  = Ok r ->
  has_fields s self fields.
Proof.
  revert names children statics.
  induction fields as [|f fields IH]; intros names children statics Hrun;
    [by constructor|].
  cbn [Struct.tree_flatten_with_keys_loop] in Hrun.
  destruct (getattr s self (f_name f)) as [v|e] eqn:Hget; [|done].
  cbn [result_bind] in Hrun. constructor; [eauto|].
  destruct (negb (truthy (is_pytree_node_field f))); by eapply IH.
Qed.

Lemma distinct_names_injective fields f1 f2 :
  NoDup (f_name <$> fields) ->
  f1 ∈ fields -> f2 ∈ fields -> f_name f1 = f_name f2 -> f1 = f2.
Proof.
  induction fields as [|f fields IH]; intros Hnd H1 H2 Heq.
  - by apply elem_of_nil in H1.
  - rewrite fmap_cons in Hnd. apply NoDup_cons in Hnd as [Hnotin Hnd].
    apply elem_of_cons in H1 as [->|H1]; apply elem_of_cons in H2 as [->|H2].
    + done.
    + exfalso. apply Hnotin. rewrite Heq. by apply list_elem_of_fmap_2.
    + exfalso. apply Hnotin. rewrite <- Heq. by apply list_elem_of_fmap_2.
    + by apply IH.
Qed.

(** X6. When the declared field names are pairwise distinct, flattening
    splits them in two: the recorded child names have no repetition, none of
    them is a key of [static_fields], and every declared field name is one
    or the other. *)
Theorem flatten_partitions_the_fields s self fields children metadata :
  dataclasses_fields s (i_class self) = Ok fields ->
  NoDup (f_name <$> fields) ->
  Struct.tree_flatten_with_keys s self = Ok (children, metadata) ->
  NoDup (child_field_names metadata)
  /\ (forall name,
        name ∈ child_field_names metadata ->
        static_fields metadata !! name = None)
  /\ (forall f,
        f ∈ fields ->
        f_name f ∈ child_field_names metadata
        \/ is_Some (static_fields metadata !! f_name f)).
Proof.
  intros Hfields Hnd Hflat.
  assert (has_fields s self fields) as Hhas.
  { unfold Struct.tree_flatten_with_keys in Hflat. rewrite Hfields in Hflat.
    cbn [result_bind] in Hflat.
    by eapply tree_flatten_with_keys_loop_returns. }
  rewrite (tree_flatten_with_keys_ok _ _ _ Hfields Hhas) in Hflat.
  injection Hflat as <- <-. cbn [child_field_names static_fields].
  split; [|split].
  - apply NoDup_fmap_2_strong.
    + intros f1 f2 [_ H1]%list_elem_of_filter [_ H2]%list_elem_of_filter.
      by apply (distinct_names_injective fields).
    + apply NoDup_filter. by eapply NoDup_fmap_1.
  - intros name (f1 & -> & [Hc1 H1]%list_elem_of_filter)%list_elem_of_fmap.
    rewrite lookup_setattr_all. rewrite decide_False; [done|].
    intros (f2 & Heq & [Hc2 H2]%list_elem_of_filter)%list_elem_of_fmap.
    apply Hc2.
    by rewrite <- (distinct_names_injective fields f1 f2 Hnd H1 H2 Heq).
  - intros f Hf. rewrite lookup_setattr_all.
    destruct (proj1 (elem_of_names_split fields (f_name f))) as [?|?].
    + by apply list_elem_of_fmap_2.
    + by left.
    + right. by rewrite decide_True.
Qed.

(** ** More on registration *)

(** Replacing a class object by one with the same MRO and the same answer
    to a lookup changes no lookup of that kind. *)
Lemma class_lookup_insert_same {X} (get : class_obj -> option X) s cls c c'
  k :
  classes s !! cls = Some c ->
  get c' = get c ->
  c_mro c' = c_mro c ->
  class_lookup (set_classes (<[cls := c']> (classes s)) s) k get
  = class_lookup s k get.
Proof.
  intros Hc Hget Hmro. unfold class_lookup.
  assert (mro (set_classes (<[cls := c']> (classes s)) s) k = mro s k) as ->.
  { unfold mro. cbn. destruct (decide (cls = k)) as [<-|Hne].
    - by rewrite lookup_insert_eq, Hc.
    - by rewrite lookup_insert_ne. }
  induction (mro s k) as [|b l IH]; [done|]. cbn [first_along classes
    set_classes].
  destruct (decide (cls = b)) as [<-|Hne].
  - rewrite lookup_insert_eq, Hc. cbn. rewrite Hget.
    destruct (get c); [done|apply IH].
  - rewrite lookup_insert_ne by done.
    destruct (classes s !! b ≫= get); [done|apply IH].
Qed.

(** The class object that the transformation leaves, in detail, for a class
    whose MRO starts with the class itself. *)
Lemma transformed_class_details o cls c s bases :
  classes s !! cls = Some c ->
  c_mro c = cls :: bases ->
  exists c',
    transformed o cls c s = set_classes (<[cls := c']> (classes s)) s
    /\ c_mro c' = c_mro c
    /\ c_metaclass c' = c_metaclass c
    /\ d_annotations c' = d_annotations c
    /\ d_tree_flatten_with_keys c' = d_tree_flatten_with_keys c
    /\ d_tree_unflatten c' = d_tree_unflatten c
    /\ d_MutableInitProxy c' = d_MutableInitProxy c
    /\ is_Some (d_dataclass_fields c')
    /\ d_init c'
       = match d_init c with
         | Some i => Some i
         | None => if opt_init o then Some (generated_init_of cls) else None
         end
    /\ d_info c'
       = Some {| has_implicitly_inherited_fields :=
                   Some (opt_has_implicitly_inherited_fields o);
                 use_mutable_proxy_in_init :=
                   Some (opt_use_mutable_proxy_in_init o);
                 is_init_proxy := Some false;
                 generated_init :=
                   Some (if opt_init o && bool_decide (d_init c = None)
                         then Some (generated_init_of cls) else None) |}.
Proof.
  intros Hc Hmro. unfold transformed.
  rewrite (update_class_Some _ _ _ _ Hc).
  set (s1 := set_classes _ s).
  set (c1 := set_info _ c) in s1.
  assert (classes s1 !! cls = Some c1) as Hc1.
  { unfold s1. cbn. by rewrite lookup_insert_eq. }
  unfold dataclasses_dataclass. rewrite Hc1.
  rewrite (update_class_Some _ _ _ _ Hc1).
  set (s2 := set_classes _ s1).
  set (c2 := (if opt_init o then _ else _) : class_obj) in s2.
  assert (classes s2 !! cls = Some c2) as Hc2.
  { unfold s2. cbn. by rewrite lookup_insert_eq. }
  assert (c_mro c2 = cls :: bases) as Hmro2.
  { unfold c2, set_new_init, c1. cbn.
    by destruct (opt_init o), (d_init c). }
  assert (d_init c2
          = match d_init c with
            | Some i => Some i
            | None => if opt_init o then Some (generated_init_of cls)
                      else None
            end) as Hinit2.
  { unfold c2, set_new_init, c1. cbn.
    destruct (d_init c) eqn:Hi; destruct (opt_init o); cbn; by rewrite ?Hi. }
  assert (forall st,
            classes st !! cls = Some c2 ->
            opt_init o && bool_decide (d_init c = None) = true ->
            class_init st cls = generated_init_of cls) as Hgen.
  { intros st Hst [Ho Hn%bool_decide_eq_true]%andb_true_iff.
    unfold class_init, class_lookup, mro. rewrite Hst, Hmro2.
    cbn [first_along]. rewrite Hst. cbn. rewrite Hinit2, Hn, Ho. done. }
  rewrite (update_class_Some _ _ _ _ Hc2).
  eexists. split.
  { unfold s2, s1, set_classes. cbn [classes jax_registry functions].
    by rewrite !insert_insert_eq. }
  assert (d_info c2 = d_info c1) as Hinfo2.
  { unfold c2, set_new_init, c1. cbn. by destruct (opt_init o), (d_init c). }
  unfold set_generated_init. rewrite Hinfo2.
  destruct (opt_init o && bool_decide (d_init c = None)) eqn:Hb;
    [rewrite Hgen by (done || apply lookup_insert_eq)|];
    clear Hgen Hc2 Hmro2 Hinit2 Hinfo2; unfold c2, set_new_init, c1; cbn;
    destruct (d_init c) eqn:Hi; destruct (opt_init o); cbn; rewrite ?Hi;
    cbn; repeat split; eauto.
Qed.

Lemma insert_eq_inv {X} (m : gmap class_id X) k x y :
  <[k := x]> m = <[k := y]> m -> x = y.
Proof.
  intros H. assert (<[k := x]> m !! k = <[k := y]> m !! k) as Hl
    by (by rewrite H).
  rewrite !lookup_insert_eq in Hl. by injection Hl.
Qed.

(** The classes of the store after a successful registration, in detail. *)
Lemma registered_store_details o cls s r s' c bases :
  pytree_dataclass o cls s = (Ok r, s') ->
  classes s !! cls = Some c ->
  c_mro c = cls :: bases ->
  exists c1,
    c_mro c1 = c_mro c
    /\ d_annotations c1 = d_annotations c
    /\ is_Some (d_dataclass_fields c1)
    /\ d_init c1
       = match d_init c with
         | Some i => Some i
         | None => if opt_init o then Some (generated_init_of cls) else None
         end
    /\ (d_info c1 ≫= generated_init)
       = Some (if opt_init o && bool_decide (d_init c = None)
               then Some (generated_init_of cls) else None)
    /\ d_MutableInitProxy c1 = d_MutableInitProxy c
    /\ transformed o cls c s = set_classes (<[cls := c1]> (classes s)) s
    /\ ((classes s' = <[cls := c1]> (classes s)
         /\ (d_init c = None \/ opt_use_mutable_proxy_in_init o = false))
        \/ (exists original_init proxy,
              d_init c = Some original_init
              /\ opt_use_mutable_proxy_in_init o = true
              /\ proxy <> cls
              /\ classes s !! proxy = None
              /\ classes s'
                 = <[cls := set_init
                              (Some (replacement_init_of cls proxy
                                       original_init))
                              (set_MutableInitProxy (Some (Some proxy))
                                 c1)]>
                     (<[proxy := MutableInitProxy_class c1 proxy
                                   original_init]>
                        (<[cls := c1]> (classes s))))).
Proof.
  intros Hreg Hc Hmro.
  destruct (registered_store _ _ _ _ _ _ Hreg Hc)
    as (_ & c1 & Ht & _ & _ & _ & _ & _ & _ & Hcases).
  destruct (transformed_class_details o cls c s bases Hc Hmro)
    as (c1' & Ht' & Hm & _ & Hann & _ & _ & Hp & Hdf & Hinit & Hinfo).
  assert (c1' = c1) as ->.
  { rewrite Ht in Ht'. injection Ht' as Heq. symmetry.
    by eapply insert_eq_inv. }
  exists c1. rewrite Hinfo. cbn. repeat (split; [done|]). done.
Qed.

Lemma class_lookup_ext {X} (get : class_obj -> option X) s1 s2 k :
  classes s1 = classes s2 -> class_lookup s1 k get = class_lookup s2 k get.
Proof.
  intros Heq. unfold class_lookup, mro. rewrite Heq.
  induction (match classes s2 !! k with Some c => c_mro c | None => [] end)
    as [|b l IH]; [done|].
  cbn [first_along]. rewrite Heq. by rewrite IH.
Qed.

Lemma class_lookup_head {X} (get : class_obj -> option X) s cls c bases x :
  classes s !! cls = Some c -> c_mro c = cls :: bases -> get c = Some x ->
  class_lookup s cls get = Some x.
Proof.
  intros Hc Hmro Hget. unfold class_lookup, mro. rewrite Hc, Hmro.
  cbn [first_along]. by rewrite Hc; cbn; rewrite Hget.
Qed.

(** The checks that a successful registration has passed. *)
Lemma registered_checks o cls s r s' c :
  pytree_dataclass o cls s = (Ok r, s') ->
  classes s !! cls = Some c ->
  parent_init_check o cls c s = (Ok tt, s)
  /\ check_fields o cls c (transformed o cls c s)
     = (Ok tt, transformed o cls c s)
  /\ hasattr_tree_flatten_with_keys (transformed o cls c s) cls
     && hasattr_tree_unflatten (transformed o cls c s) cls = true.
Proof.
  intros Hreg Hc. apply pytree_dataclass_inv in Hreg.
  assert (r = cls) as -> by (by inversion Hreg).
  inversion Hreg as [| | | | | |c0 s0 Hc0 Hnone Hp Hf Hm Hpp Hr Hs].
  rewrite Hc in Hc0. injection Hc0 as <-. done.
Qed.

(** Where the unsafe-overwrite error comes from. *)
Lemma overwrites_inherited_init_source o cls s s' name :
  outcome o cls s
    (Raise (PyTreeDataclassSafetyError (OverwritesInheritedInit name))) s' ->
  exists c,
    classes s !! cls = Some c
    /\ parent_init_check o cls c s
       = (Raise (PyTreeDataclassSafetyError (OverwritesInheritedInit name)),
          s).
Proof.
  intros Ho.
  inversion Ho as [| |c e Hc Hn Hp|c e Hc Hn Hp Hf| |c e s0 Hc Hn Hp Hf Hpp|].
  - eauto.
  - apply check_fields_raises in Hf as [?|[?|(? & ? & ?)]]; congruence.
  - apply proxy_phase_inv in Hpp
      as [([=] & _)|[(_ & [[=]|[=]])|(? & ? & _ & _ & _ & _ & [=] & _)]].
Qed.

(** X7. The unsafe-overwrite error is never raised when
    [overwrite_parent_init] is set, when [init] is false, or when the class
    body defines [__init__] itself. *)
Theorem unsafe_overwrite_error_can_be_silenced o cls s c name :
  classes s !! cls = Some c ->
  opt_overwrite_parent_init o = true \/ opt_init o = false
  \/ is_Some (d_init c) ->
  (pytree_dataclass o cls s).1
  <> Raise (PyTreeDataclassSafetyError (OverwritesInheritedInit name)).
Proof.
  intros Hc Hsilent Heq.
  pose proof (pytree_dataclass_inv o cls s _ _ (surjective_pairing _)) as Ho.
  rewrite Heq in Ho.
  apply overwrites_inherited_init_source in Ho as (c' & Hc' & Hp).
  rewrite Hc in Hc'. injection Hc' as <-.
  unfold parent_init_check in Hp.
  destruct Hsilent as [Hs|[Hs|[i Hs]]]; rewrite Hs in Hp.
  - by rewrite andb_false_r in Hp.
  - done.
  - rewrite bool_decide_eq_false_2 in Hp by done.
    by rewrite andb_false_r in Hp.
Qed.

(** X8. A class that inherits directly from a class registered with a
    generated initialiser, and defines no [__init__] of its own, never gets
    the unsafe-overwrite error: the initialiser it inherits is the one its
    parent's registration remembers. *)
Theorem subclass_of_generated_init_parent_passes_check
  o parent s r s' cp bases sub csub rest o' name :
  pytree_dataclass o parent s = (Ok r, s') ->
  classes s !! parent = Some cp ->
  c_mro cp = parent :: bases ->
  d_init cp = None ->
  opt_init o = true ->
  classes s' !! sub = Some csub ->
  c_mro csub = sub :: parent :: rest ->
  d_info csub = None ->
  d_init csub = None ->
  (pytree_dataclass o' sub s').1
  <> Raise (PyTreeDataclassSafetyError (OverwritesInheritedInit name)).
Proof.
  intros Hreg Hcp Hmro Hinit Hopt Hsub Hmrosub Hinfosub Hinitsub Heq.
  destruct (registered_store_details _ _ _ _ _ _ _ Hreg Hcp Hmro)
    as (c1 & _ & _ & _ & Hinit1 & Hrem & _ & _ &
        [[Hs' _]|(orig & ? & ? & _)]); [|congruence].
  rewrite Hinit, Hopt in Hinit1. rewrite Hinit, Hopt in Hrem.
  rewrite bool_decide_eq_true_2 in Hrem by done. cbn in Hrem.
  assert (classes s' !! parent = Some c1) as Hp1.
  { by rewrite Hs', lookup_insert_eq. }
  pose proof (pytree_dataclass_inv o' sub s' _ _ (surjective_pairing _))
    as Ho.
  rewrite Heq in Ho.
  apply overwrites_inherited_init_source in Ho as (c' & Hc' & Hp).
  rewrite Hsub in Hc'. injection Hc' as <-.
  unfold parent_init_check in Hp.
  destruct (opt_init o' && bool_decide (d_init csub = None)
            && negb (opt_overwrite_parent_init o')); [|done].
  assert ((check_parent_init sub csub s').1 = Ok tt) as Hok;
    [|by rewrite Hp in Hok].
  rewrite check_parent_init_compares_with_nearest.
  unfold expected_parent_init, class_init, class_lookup, mro.
  rewrite Hsub, Hmrosub. cbn [first_along].
  rewrite Hsub. cbn. rewrite Hinfosub, Hinitsub, Hp1. cbn.
  destruct (d_info c1) as [i|]; [|done]. cbn in Hrem. rewrite Hrem, Hinit1.
  cbn. by rewrite bool_decide_eq_true_2.
Qed.

(** X9. A registration succeeds only for a class that lists its fields.
    Without [has_implicitly_inherited_fields], the names of the dataclass
    fields of the registered class are, in order, the annotations of the
    class body that are fields; with it, at least one field is not
    annotated in the class body. *)
Theorem registered_class_lists_its_fields o cls s r s' c bases :
  pytree_dataclass o cls s = (Ok r, s') ->
  classes s !! cls = Some c ->
  c_mro c = cls :: bases ->
  exists fields,
    dataclasses_fields s' cls = Ok fields
    /\ (opt_has_implicitly_inherited_fields o = false ->
        f_name <$> fields
        = filter (fun name => name ∈ f_name <$> fields) (d_annotations c).*1)
    /\ (opt_has_implicitly_inherited_fields o = true ->
        exists f, f ∈ fields /\ f_name f ∉ (d_annotations c).*1).
Proof.
  intros Hreg Hc Hmro.
  destruct (registered_checks _ _ _ _ _ _ Hreg Hc) as (_ & Hcheck & _).
  destruct (registered_store_details _ _ _ _ _ _ _ Hreg Hc Hmro)
    as (c1 & Hmro1 & Hann & [fields Hdf] & _ & _ & _ & Ht & Hs').
  exists fields.
  assert (dataclasses_fields (transformed o cls c s) cls = Ok fields) as Hft.
  { unfold dataclasses_fields.
    rewrite (class_lookup_head d_dataclass_fields _ cls c1 bases fields);
      [done| |congruence|done].
    rewrite Ht. cbn. by rewrite lookup_insert_eq. }
  split.
  { unfold dataclasses_fields.
    destruct Hs' as [[Hs' _]|(orig & proxy & _ & _ & Hne & _ & Hs')].
    - rewrite (class_lookup_head d_dataclass_fields _ cls c1 bases fields);
        [done| |congruence|done].
      by rewrite Hs', lookup_insert_eq.
    - rewrite (class_lookup_head d_dataclass_fields _ cls
                 (set_init (Some (replacement_init_of cls proxy orig))
                    (set_MutableInitProxy (Some (Some proxy)) c1))
                 bases fields);
        [done| |by cbn; congruence|done].
      by rewrite Hs', lookup_insert_eq. }
  unfold check_fields, bind, gets in Hcheck. rewrite Hft in Hcheck.
  assert (classes (transformed o cls c s) !! cls = Some c1) as Hc1.
  { rewrite Ht. cbn. by rewrite lookup_insert_eq. }
  rewrite Hc1, Hann in Hcheck. split; intros Hopt; rewrite Hopt in Hcheck.
  - destruct (decide (filter (fun n => n ∈ f_name <$> fields)
                        (d_annotations c).*1 = f_name <$> fields))
      as [Heq|Hdiff]; [by symmetry|].
    by rewrite bool_decide_eq_true_2 in Hcheck.
  - destruct (filter (fun n => n ∉ (d_annotations c).*1) (f_name <$> fields))
      as [|n l] eqn:Hfil;
      [by rewrite bool_decide_eq_true_2 in Hcheck|].
    assert (n ∈ filter (fun n => n ∉ (d_annotations c).*1)
                  (f_name <$> fields)) as Hn
      by (rewrite Hfil; by left).
    apply list_elem_of_filter in Hn
      as [Hnot (f & -> & Hf)%list_elem_of_fmap].
    eauto.
Qed.

(** The stores that a call of [pytree_dataclass] can leave. *)
Lemma outcome_store o cls s r s' :
  outcome o cls s r s' ->
  s' = s
  \/ exists c,
       classes s !! cls = Some c
       /\ (s' = transformed o cls c s
           \/ s' = jax_registered cls (transformed o cls c s)
           \/ exists c1 original_init,
                classes (jax_registered cls (transformed o cls c s)) !! cls
                = Some c1
                /\ s' = with_proxy cls c1 original_init
                          (jax_registered cls (transformed o cls c s))).
Proof.
  intros Ho.
  inversion Ho as [| | |c e Hc|c Hc|c e s0 Hc Hn Hp Hf Hpp
                   |c s0 Hc Hn Hp Hf Hm Hpp].
  - by left.
  - by left.
  - by left.
  - right. exists c. split; [done|]. by left.
  - right. exists c. split; [done|]. by left.
  - right. exists c. split; [done|].
    apply proxy_phase_inv in Hpp
      as [(_ & -> & _)|[(-> & _)|(orig & c1 & _ & _ & Hc1 & _ & _ & ->)]].
    + right. by left.
    + right. by left.
    + right. right. by exists c1, orig.
  - right. exists c. split; [done|].
    apply proxy_phase_inv in Hpp
      as [(_ & -> & _)|[(-> & _)|(orig & c1 & _ & _ & Hc1 & _ & _ & ->)]].
    + right. by left.
    + right. by left.
    + right. right. by exists c1, orig.
Qed.

(** X10. Whatever a call of [pytree_dataclass] on [cls] does, and however
    it ends, it leaves every other class object of the store as it was,
    never changes the body of a hand-written function, and removes nothing
    from the JAX registry. *)
Theorem registration_touches_no_other_class o cls s r s' k ck :
  pytree_dataclass o cls s = (r, s') ->
  classes s !! k = Some ck ->
  k <> cls ->
  classes s' !! k = Some ck
  /\ functions s' = functions s
  /\ jax_registry s ⊆ jax_registry s'.
Proof.
  intros Hreg Hk Hne. apply pytree_dataclass_inv, outcome_store in Hreg.
  destruct Hreg as [->|(c & Hc & Hs')]; [done|].
  destruct (transformed_classes o cls c s Hc) as (c' & Ht & _).
  assert (classes (transformed o cls c s) !! k = Some ck) as Hkt.
  { rewrite Ht. cbn. by rewrite lookup_insert_ne. }
  destruct Hs' as [->|[->|(c1 & orig & Hc1 & ->)]].
  - by rewrite transformed_functions, transformed_registry.
  - rewrite jax_registered_classes, jax_registered_functions,
      jax_registered_registry, transformed_functions, transformed_registry.
    repeat split; [done|]. apply union_subseteq_r.
  - destruct (with_proxy_classes cls c1 orig _ Hc1)
      as (Hfresh & -> & -> & ->).
    rewrite jax_registered_classes, jax_registered_functions,
      jax_registered_registry, transformed_functions, transformed_registry.
    split; [|split; [done|apply union_subseteq_r]].
    rewrite lookup_insert_ne by done. rewrite lookup_insert_ne; [done|].
    intros Heq.
    pose proof (new_class_id_fresh
                  (jax_registered cls (transformed o cls c s))) as Hf.
    rewrite Heq, jax_registered_classes, Hkt in Hf. done.
Qed.

(** X11. A registration succeeds only when both codec methods are visible
    on the class, defined by it or inherited; it then adds the class, and
    nothing else, to the JAX registry. *)
Theorem registration_requires_codec_methods o cls s r s' c bases :
  pytree_dataclass o cls s = (Ok r, s') ->
  classes s !! cls = Some c ->
  c_mro c = cls :: bases ->
  hasattr_tree_flatten_with_keys s cls = true
  /\ hasattr_tree_unflatten s cls = true
  /\ jax_registry s' = {[cls]} ∪ jax_registry s.
Proof.
  intros Hreg Hc Hmro.
  destruct (registered_checks _ _ _ _ _ _ Hreg Hc) as (_ & _ & Hm).
  destruct (registered_store _ _ _ _ _ _ Hreg Hc)
    as (_ & _ & _ & _ & _ & _ & _ & _ & Hjax & _).
  destruct (transformed_class_details o cls c s bases Hc Hmro)
    as (c1 & Ht & Hmro1 & _ & _ & Hfk & Hun & _).
  apply andb_true_iff in Hm as [Hm1 Hm2].
  unfold hasattr_tree_flatten_with_keys, hasattr_tree_unflatten in *.
  rewrite Ht in Hm1, Hm2.
  rewrite (class_lookup_insert_same _ s cls c c1) in Hm1
    by (done || by rewrite Hfk).
  rewrite (class_lookup_insert_same _ s cls c c1) in Hm2
    by (done || by rewrite Hun).
  done.
Qed.

(** X12. The error for a class that already has a [_MutableInitProxy]
    attribute is raised late: when it is raised, the class body had the
    attribute and an [__init__], and the class has already been registered
    with JAX and passes the instantiation guard; no proxy class has been
    created. *)
Theorem proxy_collision_is_found_after_registration o cls s s' c :
  pytree_dataclass o cls s
  = (Raise (ValueError MutableInitProxyAlreadyDefined), s') ->
  classes s !! cls = Some c ->
  is_Some (d_MutableInitProxy c)
  /\ is_Some (d_init c)
  /\ opt_use_mutable_proxy_in_init o = true
  /\ cls ∈ jax_registry s'
  /\ is_pytree_dataclass_type s' cls = true
  /\ dom (classes s') = dom (classes s).
Proof.
  intros Hreg Hc. apply pytree_dataclass_inv in Hreg.
  inversion Hreg as [| |c0 e Hc0 Hn Hp|c0 e Hc0 Hn Hp Hf|
                     |c0 e s0 Hc0 Hn Hp Hf Hpp|].
  - apply parent_init_check_raises in Hp as [?|?]; congruence.
  - apply check_fields_raises in Hf as [?|[?|(? & ? & ?)]]; congruence.
  - rewrite Hc in Hc0. injection Hc0 as <-.
    destruct (transformed_classes o cls c s Hc)
      as (c1 & Ht & Hinfo & _ & _ & _ & Hproxy & _).
    unfold proxy_phase in Hpp.
    destruct (d_init c) as [orig|]; [|done].
    destruct (opt_use_mutable_proxy_in_init o); [|done].
    assert (classes (transformed o cls c s) !! cls = Some c1) as Hc1.
    { rewrite Ht. cbn. by rewrite lookup_insert_eq. }
    rewrite install_proxy_eq, jax_registered_classes, Hc1 in Hpp.
    rewrite Hproxy in Hpp.
    destruct (decide (is_Some (d_MutableInitProxy c))) as [Hsome|Hnot];
      [|by rewrite bool_decide_eq_false_2 in Hpp].
    rewrite bool_decide_eq_true_2 in Hpp by done.
    injection Hpp as <-.
    split; [done|]. split; [eauto|]. split; [done|].
    rewrite jax_registered_registry, jax_registered_classes.
    split; [apply elem_of_union_l; by apply elem_of_singleton|].
    unfold is_pytree_dataclass_type. rewrite jax_registered_classes, Hc1.
    split; [by rewrite bool_decide_eq_true_2|].
    by apply transformed_dom.
Qed.

(** X13. After a registration that wrapped a hand-written initialiser in
    the proxy, an exception that the initialiser raises comes out of the
    construction call unchanged, and the installed initialiser leaves
    [self] as it was. *)
Theorem initializer_exception_propagates
  o cls s s' r c bases original_init a e proxy_attrs :
  pytree_dataclass o cls s = (Ok r, s') ->
  classes s !! cls = Some c ->
  c_mro c = cls :: bases ->
  d_init c = Some original_init ->
  opt_use_mutable_proxy_in_init o = true ->
  run_init s' original_init a ∅ = (Raise e, proxy_attrs) ->
  call_class s' cls a = Raise e
  /\ forall self,
       run_init s' (class_init s' cls) a self = (Raise e, self).
Proof.
  intros Hreg Hc Hmro Hinit Huse Hrun.
  destruct (registered_with_proxy _ _ _ _ _ _ _ _ Hreg Hc Hmro Hinit Huse)
    as (proxy & fields & _ & Hci & _ & Hguard & _ & Hcall).
  assert (forall self,
            run_init s' (class_init s' cls) a self = (Raise e, self)) as Hr.
  { intros self. rewrite Hci. cbn [run_init]. by rewrite Hguard, Hrun. }
  split; [|done]. rewrite Hcall. unfold type_call. by rewrite Hr.
Qed.

(** X14. The [__init__] of a registered class, and what the registration
    remembers as generated: a hand-written [__init__] is kept, as it is
    without the proxy option and wrapped with it, and nothing is
    remembered; without a hand-written one, the generated initialiser is
    installed and remembered when [init] is requested, and otherwise the
    inherited one stays and nothing is remembered. *)
Theorem registered_class_init o cls s r s' c bases :
  pytree_dataclass o cls s = (Ok r, s') ->
  classes s !! cls = Some c ->
  c_mro c = cls :: bases ->
  exists proxy,
    class_init s' cls
    = match d_init c with
      | Some original_init =>
          if opt_use_mutable_proxy_in_init o
          then replacement_init_of cls proxy original_init
          else original_init
      | None =>
          if opt_init o then generated_init_of cls else class_init s cls
      end
    /\ ((classes s' !! cls ≫= d_info) ≫= generated_init)
       = Some (if opt_init o && bool_decide (d_init c = None)
               then Some (generated_init_of cls) else None).
Proof.
  intros Hreg Hc Hmro.
  destruct (registered_store_details _ _ _ _ _ _ _ Hreg Hc Hmro)
    as (c1 & Hmro1 & _ & _ & Hinit1 & Hrem & _ & _ &
        [[Hs' Hno]|(orig & proxy & Hinit & Huse & Hne & _ & Hs')]).
  - exists 0. assert (classes s' !! cls = Some c1) as Hc1
      by (by rewrite Hs', lookup_insert_eq).
    rewrite Hc1. split; [|done].
    destruct (d_init c) as [orig|] eqn:Hinit.
    + destruct Hno as [?| ->]; [done|]. unfold class_init.
      by rewrite (class_lookup_head d_init s' cls c1 bases orig)
        by (done || congruence).
    + destruct (opt_init o).
      * unfold class_init.
        by rewrite (class_lookup_head d_init s' cls c1 bases
                      (generated_init_of cls)) by (done || congruence).
      * unfold class_init.
        rewrite (class_lookup_ext d_init s'
                   (set_classes (<[cls := c1]> (classes s)) s)) by done.
        by rewrite (class_lookup_insert_same d_init s cls c c1)
          by (done || congruence).
  - exists proxy. rewrite Hinit in Hrem. rewrite Hinit, Huse.
    rewrite Hs', lookup_insert_eq.
    split; [|exact Hrem]. unfold class_init.
    rewrite (class_lookup_head d_init s' cls
               (set_init (Some (replacement_init_of cls proxy orig))
                  (set_MutableInitProxy (Some (Some proxy)) c1))
               bases (replacement_init_of cls proxy orig)); [done| | |done].
    + by rewrite Hs', lookup_insert_eq.
    + cbn. congruence.
Qed.

(** X15. An instance that construction through the proxy returns is
    complete: it is an instance of the registered class, every declared
    field is in its own dictionary, and it can be flattened. *)
Theorem constructed_instance_can_be_flattened
  o cls s s' r c bases original_init a inst :
  pytree_dataclass o cls s = (Ok r, s') ->
  classes s !! cls = Some c ->
  c_mro c = cls :: bases ->
  d_init c = Some original_init ->
  opt_use_mutable_proxy_in_init o = true ->
  call_class s' cls a = Ok inst ->
  i_class inst = cls
  /\ exists fields children metadata,
       dataclasses_fields s' cls = Ok fields
       /\ (forall f, f ∈ fields -> is_Some (i_attrs inst !! f_name f))
       /\ Struct.tree_flatten_with_keys s' inst = Ok (children, metadata)
       /\ child_field_names metadata
          = f_name <$> filter (fun f => is_child f) fields.
Proof.
  intros Hreg Hc Hmro Hinit Huse Hinst.
  destruct (registered_with_proxy _ _ _ _ _ _ _ _ Hreg Hc Hmro Hinit Huse)
    as (proxy & fields & _ & Hci & _ & Hguard & Hfields & Hcall).
  rewrite Hcall in Hinst. unfold type_call in Hinst.
  rewrite Hci in Hinst. cbn [run_init] in Hinst. rewrite Hguard in Hinst.
  destruct (run_init s' original_init a ∅) as [[[]|e] proxy_attrs]; [|done].
  rewrite Hfields in Hinst.
  set (on_proxy := {| i_class := proxy; i_attrs := proxy_attrs |}) in *.
  destruct (copy_fields s' on_proxy fields ∅) as [[[]|e] attrs] eqn:Hcopy;
    [|done].
  apply copy_fields_returns in Hcopy as [Hhas ->].
  injection Hinst as <-. split; [done|].
  assert (forall f, f ∈ fields ->
            setattr_all ∅ (field_items s' on_proxy fields) !! f_name f
            = Some (attr s' on_proxy (f_name f))) as Hset.
  { intros f Hf. rewrite lookup_setattr_all.
    by rewrite decide_True by (by apply list_elem_of_fmap_2). }
  set (inst := {| i_class := cls; i_attrs := _ |}).
  assert (has_fields s' inst fields) as Hall.
  { apply Forall_forall. intros f Hf. eexists.
    apply getattr_assigned. cbn [i_attrs inst]. by apply Hset. }
  eexists fields, _, _. split; [done|]. split.
  { intros f Hf. cbn [i_attrs inst]. rewrite Hset by done. eauto. }
  split; [by apply (tree_flatten_with_keys_ok s' inst fields)|done].
Qed.

(** ** The further properties at concrete inputs *)

Lemma attributes_dict_holds_every_field_witness :
  exists d,
    Struct.attributes_dict point_store a_tagged = Ok d
    /\ dom d = list_to_set (f_name <$> tagged_fields)
    /\ forall f v,
         f ∈ tagged_fields ->
         getattr point_store a_tagged (f_name f) = Ok v ->
         d !! f_name f = Some v.
Proof.
  apply (attributes_dict_holds_every_field point_store a_tagged
           tagged_fields).
  - vm_compute. reflexivity.
  - repeat constructor; eexists; vm_compute; reflexivity.
Defined.

Lemma unflatten_of_flatten_is_from_attributes_dict_witness :
  exists children metadata d,
    Struct.tree_flatten_with_keys point_store a_tagged
    = Ok (children, metadata)
    /\ Struct.tree_flatten point_store a_tagged = Ok (children.*2, metadata)
    /\ Struct.attributes_dict point_store a_tagged = Ok d
    /\ Struct.tree_unflatten point_store Tagged metadata children.*2
       = Struct.from_attributes point_store Tagged d.
Proof.
  apply (unflatten_of_flatten_is_from_attributes_dict point_store a_tagged
           tagged_fields Tagged).
  - vm_compute. reflexivity.
  - repeat constructor; eexists; vm_compute; reflexivity.
Defined.

Lemma reading_stops_at_first_missing_field_witness :
  AttributeError (NoAttribute "y") = AttributeError (NoAttribute "y")
  /\ Struct.tree_flatten_with_keys point_store a_broken_point
     = Raise (AttributeError (NoAttribute "y"))
  /\ Struct.tree_flatten point_store a_broken_point
     = Raise (AttributeError (NoAttribute "y"))
  /\ Struct.attributes_dict point_store a_broken_point
     = Raise (AttributeError (NoAttribute "y")).
Proof.
  apply (reading_stops_at_first_missing_field point_store a_broken_point
           [ {| f_name := "x"; f_metadata := ∅; f_default := None |} ]
           {| f_name := "y"; f_metadata := ∅; f_default := None |} []).
  - vm_compute. reflexivity.
  - repeat constructor; eexists; vm_compute; reflexivity.
  - vm_compute. reflexivity.
Defined.

Lemma flatten_keys_are_keys_of_child_names_witness :
  [GetAttrKey "x"; GetAttrKey "y"]
  = Struct.key_for_field point_store a_point <$> ["x"; "y"]
  /\ (class_lookup point_store (i_class a_point) d_key_for_field = None ->
      [GetAttrKey "x"; GetAttrKey "y"] = GetAttrKey <$> ["x"; "y"]).
Proof.
  apply (flatten_keys_are_keys_of_child_names point_store a_point
           [(GetAttrKey "x", VInt 1); (GetAttrKey "y", VInt 2)]
           {| child_field_names := ["x"; "y"]; static_fields := ∅ |}).
  vm_compute. reflexivity.
Defined.

Lemma unflatten_zips_children_onto_names_witness :
  (exists attributes,
     Struct.tree_unflatten point_store Tagged
       {| child_field_names := ["value"];
          static_fields := {[ "tag" := VStr "t" ]} |} [VInt 7]
     = Struct.from_attributes point_store Tagged attributes
     /\ (forall i name child,
           ["value"] !! i = Some name -> [VInt 7] !! i = Some child ->
           attributes !! name = Some child)
     /\ (forall name,
           name ∉ ["value"] ->
           attributes !! name
           = ({[ "tag" := VStr "t" ]} : gmap string value) !! name))
  /\ (forall others,
        length others <> length ["value"] ->
        Struct.tree_unflatten point_store Tagged
          {| child_field_names := ["value"];
             static_fields := {[ "tag" := VStr "t" ]} |} others
        = Raise AssertionError).
Proof.
  refine (unflatten_zips_children_onto_names point_store Tagged
            {| child_field_names := ["value"];
               static_fields := {[ "tag" := VStr "t" ]} |} [VInt 7] _ _).
  - reflexivity.
  - refine (bool_decide_unpack _ _). vm_compute. exact I.
Defined.

Lemma flatten_partitions_the_fields_witness :
  NoDup ["value"]
  /\ (forall name,
        name ∈ ["value"] ->
        ({[ "tag" := VStr "t" ]} : gmap string value) !! name = None)
  /\ (forall f,
        f ∈ tagged_fields ->
        f_name f ∈ ["value"]
        \/ is_Some (({[ "tag" := VStr "t" ]} : gmap string value)
                      !! f_name f)).
Proof.
  refine (flatten_partitions_the_fields point_store a_tagged tagged_fields
            [(GetAttrKey "value", VInt 7)]
            {| child_field_names := ["value"];
               static_fields := {[ "tag" := VStr "t" ]} |} _ _ _).
  - vm_compute. reflexivity.
  - refine (bool_decide_unpack _ _). vm_compute. exact I.
  - vm_compute. reflexivity.
Defined.

Lemma unsafe_overwrite_error_can_be_silenced_witness :
  (pytree_dataclass init_false C chain_store).1
  <> Raise (PyTreeDataclassSafetyError (OverwritesInheritedInit "C")).
Proof.
  apply (unsafe_overwrite_error_can_be_silenced init_false C chain_store
           (class_statement "C" AbstractStructMetaclass [C; B; A; 0] None
              [("x", child_field)] ∅)).
  - vm_compute. reflexivity.
  - right. left. reflexivity.
Defined.

Lemma subclass_of_generated_init_parent_passes_check_witness :
  (pytree_dataclass default_options B chain_A).1
  <> Raise (PyTreeDataclassSafetyError (OverwritesInheritedInit "B")).
Proof.
  apply (subclass_of_generated_init_parent_passes_check default_options A
           chain_declared A chain_A A_class [0] B B_class [0]).
  - vm_compute. reflexivity.
  - vm_compute. reflexivity.
  - reflexivity.
  - reflexivity.
  - reflexivity.
  - vm_compute. reflexivity.
  - reflexivity.
  - reflexivity.
  - reflexivity.
Defined.

Lemma registered_class_lists_its_fields_witness :
  exists fields,
    dataclasses_fields subclass_store A = Ok fields
    /\ (opt_has_implicitly_inherited_fields default_options = false ->
        f_name <$> fields
        = filter (fun name => name ∈ f_name <$> fields)
            (d_annotations A_class).*1)
    /\ (opt_has_implicitly_inherited_fields default_options = true ->
        exists f, f ∈ fields /\ f_name f ∉ (d_annotations A_class).*1).
Proof.
  apply (registered_class_lists_its_fields default_options A
           subclass_declared A subclass_store A_class [0]).
  - vm_compute. reflexivity.
  - vm_compute. reflexivity.
  - reflexivity.
Defined.

Lemma registration_touches_no_other_class_witness :
  classes subclass_failed !! 0 = Some Struct_class
  /\ functions subclass_failed = functions subclass_store
  /\ jax_registry subclass_store ⊆ jax_registry subclass_failed.
Proof.
  apply (registration_touches_no_other_class default_options B
           subclass_store
           (Raise (PyTreeDataclassSafetyError
                     (BadlyOrderedAttributes "B" ["y"] ["x"; "y"])))
           subclass_failed 0 Struct_class).
  - vm_compute. reflexivity.
  - vm_compute. reflexivity.
  - discriminate.
Defined.

Lemma registration_requires_codec_methods_witness :
  hasattr_tree_flatten_with_keys subclass_declared A = true
  /\ hasattr_tree_unflatten subclass_declared A = true
  /\ jax_registry subclass_store = {[A]} ∪ jax_registry subclass_declared.
Proof.
  apply (registration_requires_codec_methods default_options A
           subclass_declared A subclass_store A_class [0]).
  - vm_compute. reflexivity.
  - vm_compute. reflexivity.
  - reflexivity.
Defined.

Lemma proxy_collision_is_found_after_registration_witness :
  is_Some (d_MutableInitProxy Clash_class)
  /\ is_Some (d_init Clash_class)
  /\ opt_use_mutable_proxy_in_init default_options = true
  /\ Clash ∈ jax_registry clash_store
  /\ is_pytree_dataclass_type clash_store Clash = true
  /\ dom (classes clash_store) = dom (classes clash_declared).
Proof.
  apply (proxy_collision_is_found_after_registration default_options Clash
           clash_declared clash_store Clash_class).
  - vm_compute. reflexivity.
  - vm_compute. reflexivity.
Defined.

Lemma initializer_exception_propagates_witness :
  call_class baz_store Baz no_args = Raise (UserException 2)
  /\ forall self,
       run_init baz_store (class_init baz_store Baz) no_args self
       = (Raise (UserException 2), self).
Proof.
  apply (initializer_exception_propagates default_options Baz baz_declared
           baz_store Baz Baz_class [0] (user_init 2) no_args
           (UserException 2) ∅).
  - vm_compute. reflexivity.
  - vm_compute. reflexivity.
  - reflexivity.
  - reflexivity.
  - reflexivity.
  - vm_compute. reflexivity.
Defined.

Lemma registered_class_init_witness :
  exists proxy,
    class_init bar_store Bar
    = match d_init (class_statement "Bar" AbstractStructMetaclass [Bar; 0]
                      (Some (user_init 1))
                      [("a", child_field); ("b", static_field)] ∅) with
      | Some original_init =>
          if opt_use_mutable_proxy_in_init default_options
          then replacement_init_of Bar proxy original_init
          else original_init
      | None =>
          if opt_init default_options then generated_init_of Bar
          else class_init bar_declared Bar
      end
    /\ ((classes bar_store !! Bar ≫= d_info) ≫= generated_init)
       = Some (if opt_init default_options
                  && bool_decide
                       (d_init (class_statement "Bar"
                                  AbstractStructMetaclass [Bar; 0]
                                  (Some (user_init 1))
                                  [("a", child_field); ("b", static_field)]
                                  ∅) = None)
               then Some (generated_init_of Bar) else None).
Proof.
  apply (registered_class_init default_options Bar bar_declared Bar
           bar_store
           (class_statement "Bar" AbstractStructMetaclass [Bar; 0]
              (Some (user_init 1))
              [("a", child_field); ("b", static_field)] ∅) [0]).
  - vm_compute. reflexivity.
  - vm_compute. reflexivity.
  - reflexivity.
Defined.

Lemma constructed_instance_can_be_flattened_witness :
  i_class {| i_class := Bar;
             i_attrs := {[ "a" := VInt 1; "b" := VInt 2 ]} |} = Bar
  /\ exists fields children metadata,
       dataclasses_fields bar_store Bar = Ok fields
       /\ (forall f, f ∈ fields ->
             is_Some (({[ "a" := VInt 1; "b" := VInt 2 ]}
                         : gmap string value) !! f_name f))
       /\ Struct.tree_flatten_with_keys bar_store
            {| i_class := Bar;
               i_attrs := {[ "a" := VInt 1; "b" := VInt 2 ]} |}
          = Ok (children, metadata)
       /\ child_field_names metadata
          = f_name <$> filter (fun f => is_child f) fields.
Proof.
  refine (constructed_instance_can_be_flattened default_options Bar
            bar_declared bar_store Bar
            (class_statement "Bar" AbstractStructMetaclass [Bar; 0]
               (Some (user_init 1))
               [("a", child_field); ("b", static_field)] ∅)
            [0] (user_init 1) no_args
            {| i_class := Bar;
               i_attrs := {[ "a" := VInt 1; "b" := VInt 2 ]} |}
            _ _ _ _ _ _).
  - vm_compute. reflexivity.
  - vm_compute. reflexivity.
  - reflexivity.
  - reflexivity.
  - reflexivity.
  - vm_compute. reflexivity.
Defined.

